(** * discord-log-handler: a logging handler that forwards records to Discord

    Shallow embedding of [src/loggord/handler.py] (the package) and
    [src/main.py] (the script), together with the slice of the Python
    standard library and of discord.py that the two files call.

    Conventions.
    - A Python [str] is modelled by the bytes of its UTF-8 encoding
      ([string]); [','] and [' '] are ASCII, so splitting and replacing
      on them commutes with the encoding, and [str.encode()] is the
      identity on the model.
    - A Python [int] is a [Z].
    - [None] is [None]; an optional argument is an [option].
    - Code that can raise returns a [Result]; code that touches the logger
      registry, the event loop or the network runs in the monad [M].
    - The modules [handler] and [main] read the sources on a record that
      carries all its attributes ([LogRecord]) and for a URL the request
      constructor accepts; [handler_raw] and [main_raw] read them on the
      record as the logging call makes it ([RawRecord]), where
      [record.asctime] and [record.message] can raise, and with the
      request constructor's refusal of a URL. *)

From stdpp Require Import base option list gmap strings.
From Stdlib Require Import ZArith Lia Ascii.

#[local] Set Warnings "-register-all".
Local Open Scope Z_scope.

(** ** Python built-ins used by the sources *)

Module py.

(** [s.split(sep)] for a one-character separator. *)
Fixpoint split (sep : Ascii.ascii) (s : string) : list string :=
  match s with
  | EmptyString => [""]
  | String c rest =>
      if Ascii.eqb c sep then "" :: split sep rest
      else match split sep rest with
           | piece :: pieces => String c piece :: pieces
           | [] => [String c ""]
           end
  end.

(** [l[0]]; [None] stands for [IndexError]. *)
Definition index0 {A} (l : list A) : option A := l !! 0%nat.

(** [s.replace(old, new)] for a one-character [old]. *)
Fixpoint replace (old : Ascii.ascii) (new : string) (s : string) : string :=
  match s with
  | EmptyString => ""
  | String c rest =>
      (if Ascii.eqb c old then new else String c "") +:+ replace old new rest
  end.

(** Truth value of an optional string: [None] and [""] are falsy. *)
Definition truthy_str (s : option string) : bool :=
  match s with
  | Some (String _ _) => true
  | _ => false
  end.

(** Truth value of an optional object that defines neither [__bool__]
    nor [__len__]: falsy only when it is [None]. *)
Definition truthy_obj {A} (o : option A) : bool :=
  match o with Some _ => true | None => false end.

Inductive Exception : Type :=
| ValueError (msg : string)
| AttributeError (msg : string)
| HTTPError (code : Z) (msg : string)
| URLError (reason : string)
| OtherError (what : string).

(** Outcome of a call: a value, or an exception in flight. *)
Inductive Result (A : Type) : Type :=
| Ok (a : A)
| Raised (e : Exception).
Arguments Ok {A} a.
Arguments Raised {A} e.

(** [datetime.datetime]: the fields of a parsed instant. *)
Record datetime : Type := mk_datetime {
  year : Z; month : Z; day : Z;
  hour : Z; minute : Z; second : Z; microsecond : Z;
  utcoffset : option Z
}.

(** A JSON-serialisable Python value.  A [dict] keeps insertion order,
    which [json.dumps] follows, so it is an association list. *)
Inductive json : Type :=
| JNone
| JBool (b : bool)
| JInt (n : Z)
| JStr (s : string)
| JList (items : list json)
| JDict (items : list (string * json)).

(** [d[k]] on a dict value (first binding of [k]). *)
Fixpoint assoc (k : string) (items : list (string * json)) : option json :=
  match items with
  | [] => None
  | (k', v) :: rest => if String.eqb k k' then Some v else assoc k rest
  end.

Definition getitem (j : json) (k : string) : option json :=
  match j with
  | JDict items => assoc k items
  | _ => None
  end.


End py.
Export py.

(** ** [logging.LogRecord] and the level constants *)

Module logging.

Definition NOTSET : Z := 0.
Definition DEBUG : Z := 10.
Definition INFO : Z := 20.
Definition WARNING : Z := 30.
Definition ERROR : Z := 40.
Definition CRITICAL : Z := 50.

(** A record that carries the five attributes the handlers read: one on
    which a [logging.Formatter] whose format uses the time has stored
    [message] and [asctime].  [RawRecord] below is the record as the
    logging call makes it, before any formatter. *)
Record LogRecord : Type := mk_record {
  message : string;
  asctime : string;
  levelname : string;
  levelno : Z;
  module : string
}.

End logging.
Export logging.

(** ** discord.py objects *)

Module discord.

(** [discord.Color(value)]. *)
Record Color : Type := mk_color { value : Z }.

Record EmbedField : Type := mk_field {
  name : string;
  field_value : string;
  inline : bool
}.

(** [discord.Embed(description=..., color=..., timestamp=...)].  The
    timestamp is kept as parsed; discord.py attaches the local zone to
    a naive one. *)
Record Embed : Type := mk_embed {
  description : string;
  color : Color;
  timestamp : datetime;
  fields : list EmbedField
}.

Definition Embed_new (description : string) (color : Color)
    (timestamp : datetime) : Embed :=
  mk_embed description color timestamp [].

(** [embed.add_field(name=..., value=...)]: appends a field; [inline]
    defaults to [True]. *)
Definition add_field (e : Embed) (name value : string) : Embed :=
  mk_embed (description e) (color e) (timestamp e)
           (fields e ++ [mk_field name value true]).

(** A channel the bot can post to, and a running bot session: the
    identity of its event loop and the channels it knows by identifier. *)
Record Channel : Type := mk_channel { id : Z }.

Record Bot : Type := mk_bot {
  loop : nat;
  channels : Z -> option Channel
}.

(** [bot.get_channel(id)]: [None] for the identifier [None], else the
    channel known under [id], if any. *)
Definition get_channel (b : Bot) (id : option Z) : option Channel :=
  id ≫= channels b.

(** [discord.Color.red()], [.yellow()] and [.greyple()]: the values
    discord.py documents for the three factory methods. *)
Definition Color_red_value : Z := 0xE74C3C.
Definition Color_yellow_value : Z := 0xFEE75C.
Definition Color_greyple_value : Z := 0x99AAB5.

End discord.
Export discord.

(** ** The world outside the handler

    What the two source files reach through library calls: the registry
    of named loggers, the coroutines handed to event loops, the HTTP
    requests issued through [urllib.request.urlopen] and the messages
    given to [channel.send]. *)

Module urllib.

(** The request object [request.Request(url=..., method=...,
    headers=..., data=...)] returns for a URL it accepts; [Request_new]
    below is the constructor, which can refuse the URL. *)
Record Request : Type := mk_request {
  url : string;
  method : string;
  headers : gmap string string;
  data : string
}.

Record Response : Type := mk_response { status : Z }.

End urllib.
Export urllib.

(** The library functions whose results the sources only pass along.
    [fromisoformat] parses or raises, as [datetime.fromisoformat] does;
    [urlopen] sees the requests issued so far and the current one, and
    either raises or returns a response; [channel_send] says whether the
    awaited [channel.send] raises. *)
Class Library : Type := mk_library {
  fromisoformat : string -> Result datetime;
  json_dumps : json -> string;
  urlopen : list Request -> Request -> Result Response;
  channel_send : Channel -> Embed -> option Exception
}.

Section World.

(** [H] is the handler class attached to the loggers. *)
Context {H : Type}.

(** [logging.Logger]: its own level and its handlers, in attachment
    order. *)
Record Logger : Type := mk_logger {
  level : Z;
  handlers : list H
}.

(** A coroutine object [self._send_log(embed)] waiting on a loop. *)
Record Task : Type := mk_task {
  task_self : H;
  task_embed : Embed
}.

Record World : Type := mk_world {
  loggers : gmap string Logger;
  scheduled : list (nat * Task);
  posts : list Request;
  sent : list (Channel * Embed)
}.

(** State and exceptions: a call maps a world to an outcome and the
    world it leaves behind, also when it raises. *)
Definition M (A : Type) : Type := World -> Result A * World.

Definition ret {A} (a : A) : M A := fun w => (Ok a, w).

Definition bind {A B} (m : M A) (k : A -> M B) : M B :=
  fun w =>
    match m w with
    | (Ok a, w') => k a w'
    | (Raised e, w') => (Raised e, w')
    end.

Definition raise {A} (e : Exception) : M A := fun w => (Raised e, w).

Definition lift {A} (r : Result A) : M A := fun w => (r, w).

End World.

Arguments Logger : clear implicits.
Arguments Task : clear implicits.
Arguments World : clear implicits.
Arguments M : clear implicits.

Declare Scope py_scope.
Delimit Scope py_scope with py.
Notation "x <- m ;; k" := (bind m (fun x => k))
  (at level 100, m at next level, right associativity) : py_scope.
Notation "m ;;; k" := (bind m (fun _ => k))
  (at level 100, right associativity) : py_scope.
Local Open Scope py_scope.

(** ** The slice of [logging] the registration functions use *)

(** [logging.Handler] as an interface: its [level] attribute and the
    [emit] a subclass provides. *)
Class Handler (H : Type) : Type := mk_handler_class {
  getLevel : H -> Z;
  setLevel : Z -> H -> H;
  emit : H -> LogRecord -> M H unit
}.

Section Logging.

Context {H : Type} `{Handler H}.

(** A logger is a shared object known by its name in the registry: a
    handle is the name, and a method call on the handle updates the
    registered logger. *)
Definition update_logger (logger : string) (f : Logger H -> Logger H)
    : M H unit :=
  fun w =>
    (Ok tt, mk_world (alter f logger (loggers w))
                     (scheduled w) (posts w) (sent w)).

(** [logging.getLogger(name)]: the registered logger, created with
    level [NOTSET] and no handler on first use. *)
Definition getLogger (name : string) : M H string :=
  fun w =>
    match loggers w !! name with
    | Some _ => (Ok name, w)
    | None =>
        (Ok name, mk_world (<[name := mk_logger NOTSET []]> (loggers w))
                           (scheduled w) (posts w) (sent w))
    end.

(** [logger.setLevel(level)]. *)
Definition Logger_setLevel (logger : string) (lvl : Z) : M H unit :=
  update_logger logger (fun lg => mk_logger lvl (handlers lg)).

(** [logger.addHandler(hdlr)] for a handler object that is not attached
    yet, as a freshly constructed one is. *)
Definition Logger_addHandler (logger : string) (hdlr : H) : M H unit :=
  update_logger logger (fun lg => mk_logger (level lg) (handlers lg ++ [hdlr])).

(** [logger.getEffectiveLevel()]: the logger's own level unless it is
    [NOTSET], in which case the level [inherited] from its ancestors. *)
Definition getEffectiveLevel (inherited : Z) (lg : Logger H) : Z :=
  if Z.eqb (level lg) NOTSET then inherited else level lg.

(** [logger.isEnabledFor(level)], nothing disabled globally. *)
Definition isEnabledFor (inherited : Z) (lg : Logger H) (lvl : Z) : bool :=
  Z.geb lvl (getEffectiveLevel inherited lg).

(** The loop of [Logger.callHandlers] over the logger's own handlers:
    a handler sees the record when [record.levelno >= hdlr.level]. *)
Fixpoint callHandlers (hdlrs : list H) (record : LogRecord) : M H unit :=
  match hdlrs with
  | [] => ret tt
  | hdlr :: rest =>
      (if Z.geb (levelno record) (getLevel hdlr)
       then emit hdlr record else ret tt) ;;;
      callHandlers rest record
  end.

(** [logger.log(record.levelno, ...)] once the record is made: dropped
    unless the logger is enabled for its level, else offered to the
    logger's own handlers.  The handlers of its ancestors, which
    [Logger.callHandlers] runs next while [propagate] is set, are not
    part of this embedding. *)
Definition Logger_log (inherited : Z) (logger : string)
    (record : LogRecord) : M H unit :=
  fun w =>
    match loggers w !! logger with
    | Some lg =>
        if isEnabledFor inherited lg (levelno record)
        then callHandlers (handlers lg) record w
        else (Ok tt, w)
    | None => (Ok tt, w)
    end.

End Logging.

(** ** Library calls with an effect on the world *)

Section Effects.

Context {H : Type} `{Library}.

(** [bot.loop.create_task(coro)]: the coroutine is queued on the bot's
    loop; nothing of its body runs here. *)
Definition create_task (b : Bot) (coro : Task H) : M H unit :=
  fun w =>
    (Ok tt, mk_world (loggers w) (scheduled w ++ [(loop b, coro)])
                     (posts w) (sent w)).

(** [request.urlopen(req)]: one HTTP transaction, whatever its end. *)
Definition call_urlopen (req : Request) : M H Response :=
  fun w =>
    (urlopen (posts w) req,
     mk_world (loggers w) (scheduled w) (posts w ++ [req]) (sent w)).

(** [await channel.send(embed=embed)]. *)
Definition send (channel : Channel) (embed : Embed) : M H unit :=
  fun w =>
    match channel_send channel embed with
    | Some e => (Raised e, w)
    | None =>
        (Ok tt, mk_world (loggers w) (scheduled w) (posts w)
                         (sent w ++ [(channel, embed)]))
    end.

End Effects.

(** ** [src/loggord/handler.py] *)

Module handler.

Record DiscordLogHandler : Type := mk_handler {
  handler_level : Z;
  webhook_url : option string;
  bot : option Bot;
  channel_id : option Z
}.

Abbreviation M := (M DiscordLogHandler).

Definition get_color (record : LogRecord) : Z :=
  if Z.geb (levelno record) 40 then 0xE74C3C
  else if Z.eqb (levelno record) 30 then 0xF1C40F
  else 0x95A5A6.

(** [record.asctime.split(',')[0]]; the list is never empty
    ([get_timestamp_index] below), so no [IndexError]. *)
Definition get_timestamp (record : LogRecord) : string :=
  default "" (index0 (split ","%char (asctime record))).

Section WithLibrary.

Context `{Library}.

Definition bot_format (record : LogRecord) : Result Embed :=
  let color := mk_color (get_color record) in
  let timestamp := get_timestamp record in
  match fromisoformat timestamp with
  | Raised e => Raised e
  | Ok dt =>
      let log_embed := Embed_new (message record) color dt in
      let log_embed := add_field log_embed "Level" (levelname record) in
      let log_embed := add_field log_embed "Module" (module record) in
      let log_embed := add_field log_embed "Timestamp" timestamp in
      Ok log_embed
  end.

Definition webhook_format (record : LogRecord) : json :=
  let color := get_color record in
  let timestamp := get_timestamp record in
  JDict [
    ("embeds", JList [
      JDict [
        ("description", JStr (message record));
        ("color", JInt color);
        ("timestamp", JStr (replace " "%char "T" timestamp +:+ ".000Z"));
        ("fields", JList [
           JDict [("name", JStr "Level");
                  ("value", JStr (levelname record));
                  ("inline", JBool true)];
           JDict [("name", JStr "Module");
                  ("value", JStr (module record));
                  ("inline", JBool true)]
        ])
      ]
    ])
  ].

Definition __init__ (webhook_url : option string) (bot : option Bot)
    (channel_id : option Z) : M DiscordLogHandler :=
  if negb (truthy_obj bot) && negb (truthy_str webhook_url) then
    raise (ValueError "Either bot or webhook_url must be provided.")
  else if truthy_obj bot && truthy_str webhook_url then
    raise (ValueError "Cannot provide both bot and webhook_url.")
  else
    ret (mk_handler NOTSET webhook_url bot channel_id).

Definition from_bot (bot : Bot) (channel_id : Z) : M DiscordLogHandler :=
  __init__ None (Some bot) (Some channel_id).

Definition from_webhook (webhook_url : string) : M DiscordLogHandler :=
  __init__ (Some webhook_url) None None.

(** [if self.bot: ... elif self.webhook_url: ...]: a bot is truthy when
    it is not [None], a URL when it is a non-empty string. *)
Definition emit (self : DiscordLogHandler) (record : LogRecord) : M unit :=
  match bot self with
  | Some b =>
      embed <- lift (bot_format record) ;;
      create_task b (mk_task self embed)
  | None =>
      match webhook_url self with
      | Some (String _ _ as u) =>
          let data := json_dumps (webhook_format record) in
          let req :=
            mk_request u "POST"
              {[ "Content-Type" := "application/json";
                 "User-Agent" := "Mozilla/5.0" ]}
              data in
          res <- call_urlopen req ;;
          ret tt
      | _ => ret tt
      end
  end.

Definition _send_log (self : DiscordLogHandler) (embed : Embed) : M unit :=
  match bot self with
  | Some b =>
      match get_channel b (channel_id self) with
      | Some channel => send channel embed
      | None =>
          raise (AttributeError "'NoneType' object has no attribute 'send'")
      end
  | None => ret tt
  end.

(** What the event loop does with a queued coroutine when it runs it. *)
Definition run_task (t : Task DiscordLogHandler) : M unit :=
  _send_log (task_self t) (task_embed t).

#[export] Instance DiscordLogHandler_Handler : Handler DiscordLogHandler := {
  getLevel := handler_level;
  setLevel lvl self :=
    mk_handler lvl (webhook_url self) (bot self) (channel_id self);
  emit := emit
}.

Definition configure_discord_logging (name : string) (bot : option Bot)
    (channel_id : option Z) (webhook_url : option string) : M string :=
  logger <- getLogger name ;;
  Logger_setLevel logger DEBUG ;;;
  discord_handler <- __init__ webhook_url bot channel_id ;;
  let discord_handler := setLevel INFO discord_handler in
  Logger_addHandler logger discord_handler ;;;
  ret logger.

End WithLibrary.

End handler.

(** ** [src/main.py] *)

(** The colour factories [discord.Color.red()], [.yellow()] and
    [.greyple()], which the script names without giving their values:
    the script is read against any such triple, and [discordpy_colors]
    below is the one discord.py provides. *)
Class ColorFactory : Type := mk_color_factory {
  Color_red : Color;
  Color_yellow : Color;
  Color_greyple : Color
}.

Module main.

Record DiscordLogHandler : Type := mk_handler {
  handler_level : Z;
  bot : Bot;
  channel_id : Z
}.

Abbreviation M := (M DiscordLogHandler).

Section WithLibrary.

Context `{Library} `{ColorFactory}.

Definition __init__ (bot : Bot) (channel_id : Z) : M DiscordLogHandler :=
  ret (mk_handler NOTSET bot channel_id).

Definition format (self : DiscordLogHandler) (record : LogRecord)
    : Result Embed :=
  let color :=
    if Z.geb (levelno record) 40 then Color_red
    else if Z.eqb (levelno record) 30 then Color_yellow
    else Color_greyple in
  let timestamp := default "" (index0 (split ","%char (asctime record))) in
  match fromisoformat timestamp with
  | Raised e => Raised e
  | Ok dt =>
      let log_embed := Embed_new (message record) color dt in
      let log_embed := add_field log_embed "Level" (levelname record) in
      let log_embed := add_field log_embed "Module" (module record) in
      let log_embed := add_field log_embed "Timestamp" timestamp in
      Ok log_embed
  end.

Definition emit (self : DiscordLogHandler) (record : LogRecord) : M unit :=
  log_embed <- lift (format self record) ;;
  create_task (bot self) (mk_task self log_embed).

Definition _send_log (self : DiscordLogHandler) (embed : Embed) : M unit :=
  match get_channel (bot self) (Some (channel_id self)) with
  | Some channel => send channel embed
  | None =>
      raise (AttributeError "'NoneType' object has no attribute 'send'")
  end.

#[export] Instance DiscordLogHandler_Handler : Handler DiscordLogHandler := {
  getLevel := handler_level;
  setLevel lvl self := mk_handler lvl (bot self) (channel_id self);
  emit := emit
}.

Definition configure_discord_logging (name : string) (bot : Bot)
    (channel_id : Z) : M string :=
  logger <- getLogger name ;;
  Logger_setLevel logger DEBUG ;;;
  discord_handler <- __init__ bot channel_id ;;
  let discord_handler := setLevel INFO discord_handler in
  Logger_addHandler logger discord_handler ;;;
  ret logger.

End WithLibrary.

End main.

#[global] Existing Instance handler.DiscordLogHandler_Handler.
#[global] Existing Instance main.DiscordLogHandler_Handler.

(** ** Records before formatting, and the construction of a request *)

(** [logging.LogRecord] as the logging call makes it: [levelname],
    [levelno] and [module] are set by the constructor; [message] and
    [asctime] are attributes that only [Formatter.format] adds, the
    second when the format uses the time. *)
Record RawRecord : Type := mk_raw {
  raw_message : option string;
  raw_asctime : option string;
  raw_levelname : string;
  raw_levelno : Z;
  raw_module : string
}.

(** [record.<name>] for an attribute that may be missing. *)
Definition getattr (name : string) (v : option string) : Result string :=
  match v with
  | Some s => Ok s
  | None =>
      Raised (AttributeError
                ("'LogRecord' object has no attribute '" +:+ name +:+ "'"))
  end.

(** The formatted record a raw record amounts to once both attributes
    are there. *)
Definition formatted (record : RawRecord) : option LogRecord :=
  match raw_asctime record, raw_message record with
  | Some asctime, Some message =>
      Some (mk_record message asctime (raw_levelname record)
                      (raw_levelno record) (raw_module record))
  | _, _ => None
  end.

(** [request.Request] parses the URL when the object is built and raises
    [ValueError] for one it finds no type in (no scheme): [check_url]
    gives that exception, or [None] for a URL it accepts. *)
Class Urllib : Type := mk_urllib {
  check_url : string -> option Exception
}.

(** The constructor [request.Request(url=..., method=..., headers=...,
    data=...)]. *)
Definition Request_new `{Urllib} (url method : string)
    (headers : gmap string string) (data : string) : Result Request :=
  match check_url url with
  | Some e => Raised e
  | None => Ok (mk_request url method headers data)
  end.

(** [src/loggord/handler.py] on records as they come, every attribute
    read where the source reads it. *)
Module handler_raw.

Definition get_color (record : RawRecord) : Z :=
  if Z.geb (raw_levelno record) 40 then 0xE74C3C
  else if Z.eqb (raw_levelno record) 30 then 0xF1C40F
  else 0x95A5A6.

Definition get_timestamp (record : RawRecord) : Result string :=
  match getattr "asctime" (raw_asctime record) with
  | Raised e => Raised e
  | Ok asctime => Ok (default "" (index0 (split ","%char asctime)))
  end.

Section WithLibrary.

Context `{Library} `{Urllib}.

Definition bot_format (record : RawRecord) : Result Embed :=
  let color := mk_color (get_color record) in
  match get_timestamp record with
  | Raised e => Raised e
  | Ok timestamp =>
      match getattr "message" (raw_message record) with
      | Raised e => Raised e
      | Ok message =>
          match fromisoformat timestamp with
          | Raised e => Raised e
          | Ok dt =>
              let log_embed := Embed_new message color dt in
              let log_embed :=
                add_field log_embed "Level" (raw_levelname record) in
              let log_embed :=
                add_field log_embed "Module" (raw_module record) in
              let log_embed := add_field log_embed "Timestamp" timestamp in
              Ok log_embed
          end
      end
  end.

Definition webhook_format (record : RawRecord) : Result json :=
  let color := get_color record in
  match get_timestamp record with
  | Raised e => Raised e
  | Ok timestamp =>
      match getattr "message" (raw_message record) with
      | Raised e => Raised e
      | Ok message =>
          Ok (JDict [
            ("embeds", JList [
              JDict [
                ("description", JStr message);
                ("color", JInt color);
                ("timestamp",
                 JStr (replace " "%char "T" timestamp +:+ ".000Z"));
                ("fields", JList [
                   JDict [("name", JStr "Level");
                          ("value", JStr (raw_levelname record));
                          ("inline", JBool true)];
                   JDict [("name", JStr "Module");
                          ("value", JStr (raw_module record));
                          ("inline", JBool true)]
                ])
              ]
            ])
          ])
      end
  end.

Definition emit (self : handler.DiscordLogHandler) (record : RawRecord)
    : M handler.DiscordLogHandler unit :=
  match handler.bot self with
  | Some b =>
      embed <- lift (bot_format record) ;;
      create_task b (mk_task self embed)
  | None =>
      match handler.webhook_url self with
      | Some (String _ _ as u) =>
          payload <- lift (webhook_format record) ;;
          let data := json_dumps payload in
          req <- lift (Request_new u "POST"
                         {[ "Content-Type" := "application/json";
                            "User-Agent" := "Mozilla/5.0" ]}
                         data) ;;
          res <- call_urlopen req ;;
          ret tt
      | _ => ret tt
      end
  end.

End WithLibrary.

End handler_raw.

(** [src/main.py] on records as they come. *)
Module main_raw.

Section WithLibrary.

Context `{Library} `{ColorFactory}.

Definition format (self : main.DiscordLogHandler) (record : RawRecord)
    : Result Embed :=
  let color :=
    if Z.geb (raw_levelno record) 40 then Color_red
    else if Z.eqb (raw_levelno record) 30 then Color_yellow
    else Color_greyple in
  match getattr "asctime" (raw_asctime record) with
  | Raised e => Raised e
  | Ok asctime =>
      let timestamp := default "" (index0 (split ","%char asctime)) in
      match getattr "message" (raw_message record) with
      | Raised e => Raised e
      | Ok message =>
          match fromisoformat timestamp with
          | Raised e => Raised e
          | Ok dt =>
              let log_embed := Embed_new message color dt in
              let log_embed :=
                add_field log_embed "Level" (raw_levelname record) in
              let log_embed :=
                add_field log_embed "Module" (raw_module record) in
              let log_embed := add_field log_embed "Timestamp" timestamp in
              Ok log_embed
          end
      end
  end.

Definition emit (self : main.DiscordLogHandler) (record : RawRecord)
    : M main.DiscordLogHandler unit :=
  log_embed <- lift (format self record) ;;
  create_task (main.bot self) (mk_task self log_embed).

End WithLibrary.

End main_raw.

(** ** Sample data

    A library whose [fromisoformat] knows one timestamp, whose [urlopen]
    answers 204 and whose [channel.send] succeeds; a library whose
    [urlopen] fails with HTTP 429; the record of the specification's
    examples and variants of it; a colour factory holding the package's
    hex constants and the one of discord.py; a bot that knows a channel
    under every identifier;
    worlds and handlers to run the functions on. *)

Definition sample_fromisoformat (s : string) : Result datetime :=
  if String.eqb s "2024-03-01 12:00:00"
  then Ok (mk_datetime 2024 3 1 12 0 0 0 None)
  else Raised (ValueError ("Invalid isoformat string: '" +:+ s +:+ "'")).

Definition sample_library : Library :=
  mk_library
    sample_fromisoformat
    (fun _ => "{}")
    (fun _ _ => Ok (mk_response 204))
    (fun _ _ => None).

Definition failing_library : Library :=
  mk_library
    sample_fromisoformat
    (fun _ => "{}")
    (fun _ _ => Raised (HTTPError 429 "Too Many Requests"))
    (fun _ _ => None).

Definition sample_record : LogRecord :=
  mk_record "boom" "2024-03-01 12:00:00,123" "ERROR" 40 "worker".

Definition sample_warning : LogRecord :=
  mk_record "careful" "2024-03-01 12:00:00,123" "WARNING" 30 "worker".

Definition undated_record : LogRecord :=
  mk_record "boom" "not a date" "ERROR" 40 "worker".

Definition sample_debug : LogRecord :=
  mk_record "detail" "2024-03-01 12:00:00,123" "DEBUG" 10 "worker".

Definition hex_colors : ColorFactory :=
  mk_color_factory (mk_color 0xE74C3C) (mk_color 0xF1C40F) (mk_color 0x95A5A6).

Definition discordpy_colors : ColorFactory :=
  mk_color_factory (mk_color Color_red_value) (mk_color Color_yellow_value)
                   (mk_color Color_greyple_value).

Definition sample_bot : Bot :=
  mk_bot 0 (fun cid => Some (mk_channel cid)).

Definition empty_world {H : Type} : World H := mk_world ∅ [] [] [].

Definition world_with_app : World handler.DiscordLogHandler :=
  mk_world {[ "app" := mk_logger WARNING [] ]} [] [] [].

Definition webhook_handler : handler.DiscordLogHandler :=
  handler.mk_handler INFO (Some "https://discord.test/hook") None None.

Definition bot_handler : handler.DiscordLogHandler :=
  handler.mk_handler INFO None (Some sample_bot) (Some 7).

Definition script_handler : main.DiscordLogHandler :=
  main.mk_handler INFO sample_bot 7.

Definition sample_datetime : datetime := mk_datetime 2024 3 1 12 0 0 0 None.

(** The record [logger.error("boom")] hands to the first handler, and
    the same record once a formatter has run. *)
Definition fresh_record : RawRecord :=
  mk_raw None None "ERROR" 40 "worker".


(** Whether a URL starts with a scheme: characters other than [/] and
    [:], at least one, then [:]. *)
Fixpoint scheme_follows (seen : bool) (url : string) : bool :=
  match url with
  | EmptyString => false
  | String c rest =>
      if Ascii.eqb c ":" then seen
      else if Ascii.eqb c "/" then false
      else scheme_follows true rest
  end.

(** A [request.Request] that refuses the URLs without scheme. *)
Definition sample_urllib : Urllib :=
  mk_urllib (fun url =>
    if scheme_follows false url then None
    else Some (ValueError ("unknown url type: '" +:+ url +:+ "'"))).


Definition sample_embed : Embed :=
  mk_embed "boom" (mk_color 0xE74C3C) sample_datetime
    [mk_field "Level" "ERROR" true;
     mk_field "Module" "worker" true;
     mk_field "Timestamp" "2024-03-01 12:00:00" true].

(** ** Vocabulary of the statements *)

(** The characters of a string. *)
Definition chars (s : string) : list Ascii.ascii := String.list_ascii_of_string s.

(** [payload['embeds'][0]]. *)
Definition first_embed (payload : json) : option json :=
  match getitem payload "embeds" with
  | Some (JList items) => index0 items
  | _ => None
  end.


(** [payload['embeds'][0][key]]. *)
Definition embed_entry (payload : json) (key : string) : option json :=
  first_embed payload ≫= (fun e => getitem e key).

(** A labelled field as the webhook payload writes it. *)
Definition field_json (f : EmbedField) : json :=
  JDict [("name", JStr (name f)); ("value", JStr (field_value f));
         ("inline", JBool (inline f))].

(** The handlers attached to the logger called [name], none when it is
    not registered. *)
Definition handlers_of {H : Type} (w : World H) (name : string) : list H :=
  default [] (handlers <$> loggers w !! name).

(** Python's reading of "supplied": the argument is truthy. *)
Definition both_supplied (bot : option Bot) (webhook_url : option string) : Prop :=
  truthy_obj bot = true ∧ truthy_str webhook_url = true.

Definition neither_supplied (bot : option Bot) (webhook_url : option string) : Prop :=
  truthy_obj bot = false ∧ truthy_str webhook_url = false.

(** Exactly one of the two targets is supplied. *)
Definition one_supplied (bot : option Bot) (webhook_url : option string) : Prop :=
  (truthy_obj bot = true ∧ truthy_str webhook_url = false) ∨
  (truthy_obj bot = false ∧ truthy_str webhook_url = true).

(** The registry after [getLogger(name)] and [setLevel(DEBUG)]. *)
Definition leveled {H : Type} (name : string) (w : World H) : World H :=
  mk_world (<[name := mk_logger DEBUG (handlers_of w name)]> (loggers w))
           (scheduled w) (posts w) (sent w).

(** The registry after the handler [h] is attached as well. *)
Definition attached {H : Type} (name : string) (h : H) (w : World H) : World H :=
  mk_world (<[name := mk_logger DEBUG (handlers_of w name ++ [h])]> (loggers w))
           (scheduled w) (posts w) (sent w).

(** What registration promises about the logger [name] of [w'] and the
    sink [h] attached to it, [w] being the world before: the logger has
    level [DEBUG] and [h] as its last handler; every level from [DEBUG]
    up passes the logger; [h] has level [INFO]; a [DEBUG] record passes
    the logger, is not emitted by [h], and logging it does what the
    handlers attached before do. *)
Definition sink_registered {H : Type} `{Handler H} (inherited : Z)
    (name : string) (h : H) (w w' : World H) : Prop :=
  let lg := mk_logger DEBUG (handlers_of w name ++ [h]) in
  loggers w' !! name = Some lg ∧
  (∀ n, n ≠ name → loggers w' !! n = loggers w !! n) ∧
  getLevel h = INFO ∧
  (∀ lvl, DEBUG ≤ lvl → isEnabledFor inherited lg lvl = true) ∧
  (∀ r, levelno r = DEBUG →
     isEnabledFor inherited lg (levelno r) = true ∧
     (∀ w2, callHandlers [h] r w2 = (Ok tt, w2)) ∧
     Logger_log inherited name r w' = callHandlers (handlers_of w name) r w').

(** The request [emit] builds for the webhook at [u]. *)
Definition webhook_request `{Library} (u : string) (r : LogRecord) : Request :=
  mk_request u "POST"
    {[ "Content-Type" := "application/json"; "User-Agent" := "Mozilla/5.0" ]}
    (json_dumps (handler.webhook_format r)).

(** The embed both bot-mode formatters build around a colour and a parsed
    timestamp. *)
Definition bot_embed (c : Color) (dt : datetime) (r : LogRecord) : Embed :=
  mk_embed (message r) c dt
    [mk_field "Level" (levelname r) true;
     mk_field "Module" (module r) true;
     mk_field "Timestamp" (handler.get_timestamp r) true].

(** The colour the script picks for a record. *)
Definition script_color `{ColorFactory} (r : LogRecord) : Color :=
  if Z.geb (levelno r) 40 then Color_red
  else if Z.eqb (levelno r) 30 then Color_yellow
  else Color_greyple.

(** The record [r] with another formatted time. *)
Definition with_asctime (t : string) (r : LogRecord) : LogRecord :=
  mk_record (message r) t (levelname r) (levelno r) (module r).

(** The world [w] with the request [req] added to the issued ones. *)
Definition posted {H : Type} (req : Request) (w : World H) : World H :=
  mk_world (loggers w) (scheduled w) (posts w ++ [req]) (sent w).

(** The world [w] with a task queued on a loop. *)
Definition queued {H : Type} (l : nat) (t : Task H) (w : World H) : World H :=
  mk_world (loggers w) (scheduled w ++ [(l, t)]) (posts w) (sent w).

(** The world [w] with an embed delivered to a channel. *)
Definition delivered {H : Type} (c : Channel) (e : Embed) (w : World H)
    : World H :=
  mk_world (loggers w) (scheduled w) (posts w) (sent w ++ [(c, e)]).

(** What the caller of [emit] sees of the outcome of [urlopen]. *)
Definition discard {A : Type} (r : Result A) : Result unit :=
  match r with Ok _ => Ok tt | Raised e => Raised e end.

(** Decides that a character does not occur in a literal string. *)
Ltac absent_char :=
  unfold chars; simpl;
  intros Hin;
  repeat (apply elem_of_cons in Hin as [Hin|Hin]; [discriminate Hin|]);
  by apply elem_of_nil in Hin.

(** ** Strings *)

Lemma split_head (sep : Ascii.ascii) (s : string) :
  ∃ h t rest, split sep s = h :: t ∧ s = h +:+ rest ∧ (sep ∉ chars h) ∧
              (rest = "" ∨ ∃ rest', rest = String sep rest').
Proof.
  induction s as [|c s IH]; simpl.
  - exists "", [], "". repeat split; [apply not_elem_of_nil | by left].
  - destruct IH as (h & t & rest & Hs & Heq & Hno & Hrest).
    destruct (Ascii.eqb c sep) eqn:Hc.
    + apply Ascii.eqb_eq in Hc as ->.
      exists "", (split sep s), (String sep s).
      repeat split; [apply not_elem_of_nil | right; by exists s].
    + rewrite Hs. exists (String c h), t, rest.
      repeat split; [by rewrite Heq | | done].
      unfold chars; simpl. intros [->|Hin]%elem_of_cons.
      * by rewrite Ascii.eqb_refl in Hc.
      * by apply Hno.
Qed.

Lemma split_nonempty (sep : Ascii.ascii) (s : string) : split sep s ≠ [].
Proof. destruct (split_head sep s) as (h & t & ? & -> & _). done. Qed.

Lemma replace_chars (old new : Ascii.ascii) (s : string) :
  chars (replace old (String new "") s)
  = (fun c => if Ascii.eqb c old then new else c) <$> chars s.
Proof.
  unfold chars. induction s as [|c s IH]; simpl; [done|].
  destruct (Ascii.eqb c old); simpl; f_equal; exact IH.
Qed.

(** ** Timestamps *)

(** Indexing the split never raises [IndexError]. *)
Lemma get_timestamp_index (r : LogRecord) :
  index0 (split ","%char (asctime r)) = Some (handler.get_timestamp r).
Proof.
  unfold handler.get_timestamp.
  destruct (split_head ","%char (asctime r)) as (h & t & ? & -> & _). done.
Qed.

(** The timestamp is the part of [asctime] before its first comma. *)
Lemma get_timestamp_prefix (r : LogRecord) :
  ∃ rest, asctime r = handler.get_timestamp r +:+ rest ∧
          (","%char ∉ chars (handler.get_timestamp r)) ∧
          (rest = "" ∨ ∃ rest', rest = String ","%char rest').
Proof.
  unfold handler.get_timestamp.
  destruct (split_head ","%char (asctime r)) as (h & t & rest & -> & Heq & Hno & Hrest).
  exists rest. done.
Qed.

(** With one separating space, replacing spaces puts a [T] in its place. *)
Lemma replace_separating_space (d t : string) :
  " "%char ∉ chars d → " "%char ∉ chars t →
  replace " "%char "T" (d +:+ " " +:+ t) = d +:+ "T" +:+ t.
Proof.
  intros Hd Ht.
  assert (Hfix : ∀ s, " "%char ∉ chars s → replace " "%char "T" s = s).
  { induction s as [|c s IH]; [done|]. unfold chars; simpl.
    intros Hs. apply not_elem_of_cons in Hs as [Hc Hs].
    destruct (Ascii.eqb c " ") eqn:E.
    - apply Ascii.eqb_eq in E. congruence.
    - change (String c (replace " "%char "T" s) = String c s).
      f_equal. by apply IH. }
  induction d as [|c d IH].
  - change (String "T"%char (replace " "%char "T" t) = String "T"%char t).
    f_equal. by apply Hfix.
  - unfold chars in Hd; simpl in Hd. apply not_elem_of_cons in Hd as [Hc Hd].
    simpl. destruct (Ascii.eqb c " ") eqn:E.
    + apply Ascii.eqb_eq in E. congruence.
    + change (String c (replace " "%char "T" (d +:+ " " +:+ t))
              = String c (d +:+ "T" +:+ t)).
      f_equal. by apply IH.
Qed.

Example replace_separating_space_sample :
  replace " "%char "T" ("2024-03-01" +:+ " " +:+ "12:00:00")
  = "2024-03-01" +:+ "T" +:+ "12:00:00".
Proof. apply replace_separating_space; absent_char. Defined.

Section Formatting.

Context `{Library} `{ColorFactory}.

(** C3: for every record the display timestamp is [asctime] cut at its
    first comma (a prefix without comma, followed by nothing or by a
    comma), and the timestamp of the webhook embed is that string with
    each space turned into [T], followed by [.000Z]: with one
    separating space, the date, [T], the time and [.000Z]; on
    ["2024-03-01 12:00:00,123"] the two are ["2024-03-01 12:00:00"] and
    ["2024-03-01T12:00:00.000Z"]. *)
Theorem timestamp_truncated_and_iso (r : LogRecord) :
  (∃ rest, asctime r = handler.get_timestamp r +:+ rest ∧
           (","%char ∉ chars (handler.get_timestamp r)) ∧
           (rest = "" ∨ ∃ rest', rest = String ","%char rest')) ∧
  (∃ iso, embed_entry (handler.webhook_format r) "timestamp"
            = Some (JStr (iso +:+ ".000Z")) ∧
          chars iso = (fun c => if Ascii.eqb c " " then "T"%char else c)
                        <$> chars (handler.get_timestamp r)) ∧
  (∀ d t, handler.get_timestamp r = d +:+ " " +:+ t →
          " "%char ∉ chars d → " "%char ∉ chars t →
          embed_entry (handler.webhook_format r) "timestamp"
            = Some (JStr ((d +:+ "T" +:+ t) +:+ ".000Z"))) ∧
  (asctime r = "2024-03-01 12:00:00,123" →
     handler.get_timestamp r = "2024-03-01 12:00:00" ∧
     embed_entry (handler.webhook_format r) "timestamp"
       = Some (JStr "2024-03-01T12:00:00.000Z")).
Proof.
  split; [apply get_timestamp_prefix|]. split; [|split].
  - exists (replace " "%char "T" (handler.get_timestamp r)).
    split; [reflexivity | apply replace_chars].
  - intros d t Hts Hd Ht. unfold embed_entry, first_embed; simpl.
    by rewrite Hts, replace_separating_space.
  - intros Hr. unfold embed_entry, first_embed; simpl.
    unfold handler.get_timestamp. rewrite Hr. by vm_compute.
Qed.

(** C1, amended: in the package the colour depends on [levelno] alone:
    red [0xE74C3C] from 40 up, yellow [0xF1C40F] at 30, grey [0x95A5A6]
    below 30; the webhook payload carries that number and so does the
    colour of every embed [bot_format] returns.  The script picks its
    red, yellow and greyple colour objects by the same thresholds; with
    the values of discord.py they are [0xE74C3C], [0xFEE75C] and
    [0x99AAB5]. *)
Theorem color_by_level (r : LogRecord) :
  (40 ≤ levelno r → handler.get_color r = 0xE74C3C) ∧
  (levelno r = 30 → handler.get_color r = 0xF1C40F) ∧
  (levelno r < 30 → handler.get_color r = 0x95A5A6) ∧
  (∀ r', levelno r' = levelno r → handler.get_color r' = handler.get_color r) ∧
  embed_entry (handler.webhook_format r) "color"
    = Some (JInt (handler.get_color r)) ∧
  (∀ dt, fromisoformat (handler.get_timestamp r) = Ok dt →
     ∃ e, handler.bot_format r = Ok e ∧
          value (color e) = handler.get_color r) ∧
  (∀ e, handler.bot_format r = Ok e → value (color e) = handler.get_color r) ∧
  (∀ self dt, fromisoformat (handler.get_timestamp r) = Ok dt →
     ∃ e, main.format self r = Ok e ∧
          (40 ≤ levelno r → color e = Color_red) ∧
          (levelno r = 30 → color e = Color_yellow) ∧
          (levelno r < 30 → color e = Color_greyple)) ∧
  (∀ self dt, fromisoformat (handler.get_timestamp r) = Ok dt →
     ∃ e, main.format (H0:=discordpy_colors) self r = Ok e ∧
          (40 ≤ levelno r → value (color e) = 0xE74C3C) ∧
          (levelno r = 30 → value (color e) = 0xFEE75C) ∧
          (levelno r < 30 → value (color e) = 0x99AAB5)).
Proof.
  unfold handler.get_color.
  split; [|split; [|split; [|split; [|split; [|split; [|split; [|split]]]]]]].
  - intros Hl. destruct (Z.geb_spec (levelno r) 40); [done | lia].
  - intros ->. done.
  - intros Hl. destruct (Z.geb_spec (levelno r) 40); [lia|].
    destruct (Z.eqb_spec (levelno r) 30); [lia | done].
  - by intros r' ->.
  - done.
  - intros dt Hdt. unfold handler.bot_format. rewrite Hdt. by eexists.
  - intros e. unfold handler.bot_format.
    destruct (fromisoformat _); [|done]. by intros [= <-].
  - intros self dt Hdt. unfold main.format.
    fold (handler.get_timestamp r). rewrite Hdt.
    eexists. split; [reflexivity|]. simpl.
    split; [|split]; intros Hl.
    + destruct (Z.geb_spec (levelno r) 40); [done | lia].
    + by rewrite Hl.
    + destruct (Z.geb_spec (levelno r) 40); [lia|].
      destruct (Z.eqb_spec (levelno r) 30); [lia | done].
  - intros self dt Hdt. unfold main.format.
    fold (handler.get_timestamp r). rewrite Hdt.
    eexists. split; [reflexivity|]. simpl.
    split; [|split]; intros Hl.
    + destruct (Z.geb_spec (levelno r) 40); [done | lia].
    + by rewrite Hl.
    + destruct (Z.geb_spec (levelno r) 40); [lia|].
      destruct (Z.eqb_spec (levelno r) 30); [lia | done].
Qed.

End Formatting.

Lemma timestamp_truncated_and_iso_witness :
  handler.get_timestamp sample_record = "2024-03-01 12:00:00" ∧
  embed_entry (handler.webhook_format sample_record) "timestamp"
    = Some (JStr "2024-03-01T12:00:00.000Z").
Proof.
  exact (proj2 (proj2 (proj2 (timestamp_truncated_and_iso sample_record))) eq_refl).
Defined.

Lemma color_by_level_witness :
  handler.get_color sample_record = 0xE74C3C ∧
  handler.get_color sample_warning = 0xF1C40F ∧
  handler.get_color sample_debug = 0x95A5A6.
Proof.
  split; [|split].
  - apply (proj1 (color_by_level (H:=sample_library) (H0:=hex_colors) sample_record)).
    simpl; lia.
  - apply (proj1 (proj2 (color_by_level (H:=sample_library) (H0:=hex_colors) sample_warning))).
    reflexivity.
  - apply (proj1 (proj2 (proj2 (color_by_level (H:=sample_library) (H0:=hex_colors) sample_debug)))).
    simpl; lia.
Defined.

(** C1 as stated fails in the script: with the colours of discord.py a
    record of level 30 is rendered [0xFEE75C], not [0xF1C40F], and a
    record of level 10 [0x99AAB5], not [0x95A5A6]. *)
Lemma script_color_is_not_hex :
  ∃ e d,
    levelno sample_warning = 30 ∧
    main.format (H:=sample_library) (H0:=discordpy_colors)
      script_handler sample_warning = Ok e ∧
    value (color e) = 0xFEE75C ∧
    levelno sample_debug = 10 ∧
    main.format (H:=sample_library) (H0:=discordpy_colors)
      script_handler sample_debug = Ok d ∧
    value (color d) = 0x99AAB5.
Proof. do 2 eexists. by vm_compute. Qed.

(** ** The logger registry *)

Section Registry.

Context {H : Type} `{Handler H}.

Lemma alter_registered (f : Logger H → Logger H) (name : string)
    (m : gmap string (Logger H)) (lg : Logger H) :
  m !! name = Some lg → alter f name m = <[name := f lg]> m.
Proof.
  intros Hm. apply map_eq; intros j.
  rewrite lookup_alter, lookup_insert.
  case_decide; subst; by rewrite ?Hm.
Qed.

(** [getLogger] followed by [setLevel]: the named logger, registered if
    it was not, has the new level and the handlers it had. *)
Lemma getLogger_setLevel (name : string) (lvl : Z) (w : World H) :
  (logger <- getLogger name ;; Logger_setLevel logger lvl) w
  = (Ok tt, mk_world (<[name := mk_logger lvl (handlers_of w name)]> (loggers w))
                     (scheduled w) (posts w) (sent w)).
Proof.
  unfold bind, getLogger, Logger_setLevel, update_logger, handlers_of.
  destruct (loggers w !! name) as [lg|] eqn:Hlg; simpl.
  - by rewrite (alter_registered _ _ _ lg).
  - by rewrite alter_insert_eq.
Qed.

(** Attaching a handler to a registered logger. *)
Lemma addHandler_registered (name : string) (hdlr : H) (lg : Logger H)
    (w : World H) :
  loggers w !! name = Some lg →
  Logger_addHandler name hdlr w
  = (Ok tt, mk_world (<[name := mk_logger (level lg) (handlers lg ++ [hdlr])]>
                        (loggers w))
                     (scheduled w) (posts w) (sent w)).
Proof.
  intros Hlg. unfold Logger_addHandler, update_logger.
  by rewrite (alter_registered _ _ _ lg).
Qed.

(** Handlers are offered the record one after the other. *)
Lemma callHandlers_app (hs1 hs2 : list H) (record : LogRecord) (w : World H) :
  callHandlers (hs1 ++ hs2) record w
  = (callHandlers hs1 record ;;; callHandlers hs2 record) w.
Proof.
  revert w. induction hs1 as [|h hs1 IH]; intros w; simpl; [done|].
  unfold bind.
  destruct ((if Z.geb (levelno record) (getLevel h)
             then emit h record else ret tt) w) as [[[]|e] w1]; [|done].
  rewrite IH. done.
Qed.

(** A handler whose level is above the record's is skipped. *)
Lemma callHandlers_filtered (hdlr : H) (record : LogRecord) (w : World H) :
  levelno record < getLevel hdlr →
  callHandlers [hdlr] record w = (Ok tt, w).
Proof.
  intros Hlt. simpl. destruct (Z.geb_spec (levelno record) (getLevel hdlr)); [lia|].
  done.
Qed.

End Registry.

(** ** Construction and registration *)

Lemma handlers_of_leveled {H : Type} (name n : string) (w : World H) :
  handlers_of (leveled name w) n = handlers_of w n.
Proof.
  unfold handlers_of at 1, leveled; simpl.
  destruct (decide (name = n)) as [->|Hne].
  - by rewrite lookup_insert_eq.
  - by rewrite lookup_insert_ne.
Qed.

Lemma attached_registered {H : Type} `{Handler H} (inherited : Z)
    (name : string) (h : H) (w : World H) :
  getLevel h = INFO → sink_registered inherited name h w (attached name h w).
Proof.
  intros Hlvl. unfold sink_registered, attached; simpl.
  split; [by rewrite lookup_insert_eq|].
  split; [by intros n Hn; rewrite lookup_insert_ne|].
  split; [done|].
  assert (Hen : ∀ lvl, DEBUG ≤ lvl →
            isEnabledFor inherited
              (mk_logger DEBUG (handlers_of w name ++ [h])) lvl = true).
  { intros lvl Hl. unfold isEnabledFor, getEffectiveLevel; simpl.
    destruct (Z.geb_spec lvl DEBUG); [done | lia]. }
  split; [exact Hen|].
  intros r Hr.
  assert (Hskip : ∀ w2, callHandlers [h] r w2 = (Ok tt, w2)).
  { intros w2. apply callHandlers_filtered. rewrite Hr, Hlvl. done. }
  split; [apply Hen; lia|]. split; [exact Hskip|].
  unfold Logger_log; simpl. rewrite lookup_insert_eq, Hen by lia. simpl.
  rewrite callHandlers_app. unfold bind.
  destruct (callHandlers (handlers_of w name) r _) as [[[]|e] w1]; [|done].
  apply Hskip.
Qed.

Section Construction.

Context `{Library} `{ColorFactory}.

Lemma init_outcome (url : option string) (bot : option Bot) (cid : option Z)
    (w : World handler.DiscordLogHandler) :
  handler.__init__ url bot cid w
  = if negb (truthy_obj bot) && negb (truthy_str url) then
      (Raised (ValueError "Either bot or webhook_url must be provided."), w)
    else if truthy_obj bot && truthy_str url then
      (Raised (ValueError "Cannot provide both bot and webhook_url."), w)
    else (Ok (handler.mk_handler NOTSET url bot cid), w).
Proof.
  unfold handler.__init__.
  destruct (truthy_obj bot), (truthy_str url); done.
Qed.

Lemma configure_outcome (name : string) (bot : option Bot) (cid : option Z)
    (url : option string) (w : World handler.DiscordLogHandler) :
  handler.configure_discord_logging name bot cid url w
  = if negb (truthy_obj bot) && negb (truthy_str url) then
      (Raised (ValueError "Either bot or webhook_url must be provided."),
       leveled name w)
    else if truthy_obj bot && truthy_str url then
      (Raised (ValueError "Cannot provide both bot and webhook_url."),
       leveled name w)
    else (Ok name, attached name (handler.mk_handler INFO url bot cid) w).
Proof.
  unfold handler.configure_discord_logging.
  unfold bind at 1.
  assert (Hget : ∃ w0, getLogger name w = (Ok name, w0) ∧
            (logger <- getLogger name ;; Logger_setLevel logger DEBUG) w
            = Logger_setLevel name DEBUG w0).
  { unfold bind, getLogger. destruct (loggers w !! name); eauto. }
  destruct Hget as (w0 & -> & Hset).
  rewrite getLogger_setLevel in Hset. unfold bind at 1. rewrite <- Hset.
  unfold bind at 1. rewrite init_outcome. fold (leveled name w).
  destruct (truthy_obj bot), (truthy_str url); simpl; try done.
  all: unfold bind; erewrite addHandler_registered
    by (unfold leveled; simpl; apply lookup_insert_eq).
  all: unfold attached, leveled; simpl; by rewrite insert_insert_eq.
Qed.

Lemma script_configure_outcome (name : string) (bot : Bot) (cid : Z)
    (w : World main.DiscordLogHandler) :
  main.configure_discord_logging name bot cid w
  = (Ok name, attached name (main.mk_handler INFO bot cid) w).
Proof.
  unfold main.configure_discord_logging.
  unfold bind at 1.
  assert (Hget : ∃ w0, getLogger name w = (Ok name, w0) ∧
            (logger <- getLogger name ;; Logger_setLevel logger DEBUG) w
            = Logger_setLevel name DEBUG w0).
  { unfold bind, getLogger. destruct (loggers w !! name); eauto. }
  destruct Hget as (w0 & -> & Hset).
  rewrite getLogger_setLevel in Hset. unfold bind at 1. rewrite <- Hset.
  unfold bind at 1. unfold main.__init__, ret. fold (leveled name w).
  unfold bind; erewrite addHandler_registered
    by (unfold leveled; simpl; apply lookup_insert_eq).
  unfold attached, leveled; simpl; by rewrite insert_insert_eq.
Qed.

End Construction.

Section Registration.

Context `{Library} `{ColorFactory}.

(** C2, amended: with both a bot and a webhook URL supplied, or with
    neither, the constructor raises [ValueError] and leaves the world as
    it was; the registration function raises the same error, attaches
    no handler to any logger, issues no request and schedules nothing,
    but by then it has registered the named logger if need be and set
    its level to [DEBUG]. *)
Theorem misconfigured_raises (name : string) (bot : option Bot)
    (cid : option Z) (url : option string)
    (w : World handler.DiscordLogHandler) :
  both_supplied bot url ∨ neither_supplied bot url →
  ∃ msg,
    handler.__init__ url bot cid w = (Raised (ValueError msg), w) ∧
    ∃ w', handler.configure_discord_logging name bot cid url w
            = (Raised (ValueError msg), w') ∧
          (∀ n, handlers_of w' n = handlers_of w n) ∧
          posts w' = posts w ∧ scheduled w' = scheduled w ∧
          sent w' = sent w ∧
          loggers w'
            = <[name := mk_logger DEBUG (handlers_of w name)]> (loggers w).
Proof.
  rewrite init_outcome, configure_outcome.
  intros [[-> ->]|[-> ->]]; simpl; eexists; (split; [reflexivity|]);
    exists (leveled name w); (split; [reflexivity|]);
    (split; [intros n; apply handlers_of_leveled | done]).
Qed.

(** C6: for every logger name and every valid configuration the
    registration function returns the named logger, now at level
    [DEBUG], the lowest of the named severities, so that every level
    from [DEBUG] up passes it, with the sink attached last at level
    [INFO]; a [DEBUG] record passes the logger and is not emitted by
    the sink.  The script's registration function does the same. *)
Theorem registration_levels (inherited : Z) (name : string) :
  (∀ bot cid url (w : World handler.DiscordLogHandler),
     one_supplied bot url →
     ∃ h w',
       handler.configure_discord_logging name bot cid url w = (Ok name, w') ∧
       h = handler.mk_handler INFO url bot cid ∧
       sink_registered inherited name h w w') ∧
  (∀ bot cid (w : World main.DiscordLogHandler),
     ∃ h w',
       main.configure_discord_logging name bot cid w = (Ok name, w') ∧
       h = main.mk_handler INFO bot cid ∧
       sink_registered inherited name h w w') ∧
  DEBUG < INFO ∧
  (∀ lvl, lvl ∈ [DEBUG; INFO; WARNING; ERROR; CRITICAL] → DEBUG ≤ lvl).
Proof.
  split; [|split; [|split]].
  - intros bot cid url w Hone. rewrite configure_outcome.
    destruct Hone as [[-> ->]|[-> ->]]; simpl;
      do 2 eexists; (split; [reflexivity|]); (split; [reflexivity|]);
      by apply attached_registered.
  - intros bot cid w. rewrite script_configure_outcome.
    do 2 eexists; (split; [reflexivity|]); (split; [reflexivity|]).
    by apply attached_registered.
  - done.
  - intros lvl Hin. repeat (apply elem_of_cons in Hin as [->|Hin]; [done|]).
    by apply elem_of_nil in Hin.
Qed.

End Registration.

(** C2 as stated fails for the registration function: called with neither
    target on a world where the logger [app] has level [WARNING], it
    raises and leaves [app] at level [DEBUG]. *)
Lemma failed_registration_changes_level :
  level <$> loggers world_with_app !! "app" = Some WARNING ∧
  (handler.configure_discord_logging (H:=sample_library)
     "app" None None None world_with_app).1
    = Raised (ValueError "Either bot or webhook_url must be provided.") ∧
  level <$> loggers (handler.configure_discord_logging (H:=sample_library)
                       "app" None None None world_with_app).2 !! "app"
    = Some DEBUG.
Proof.
  rewrite configure_outcome; simpl.
  unfold world_with_app; simpl.
  by rewrite lookup_singleton_eq, lookup_insert_eq.
Qed.

Lemma misconfigured_raises_witness :
  ∃ msg,
    handler.__init__ None None None world_with_app
      = (Raised (ValueError msg), world_with_app) ∧
    ∃ w', handler.configure_discord_logging (H:=sample_library)
            "app" None None None world_with_app
            = (Raised (ValueError msg), w') ∧
          (∀ n, handlers_of w' n = handlers_of world_with_app n) ∧
          posts w' = posts world_with_app ∧
          scheduled w' = scheduled world_with_app ∧
          sent w' = sent world_with_app ∧
          loggers w'
            = <[ "app" := mk_logger DEBUG (handlers_of world_with_app "app")]>
                (loggers world_with_app).
Proof.
  apply (misconfigured_raises (H:=sample_library) "app" None None None).
  right. split; reflexivity.
Defined.

Lemma registration_levels_witness :
  ∃ h w',
    handler.configure_discord_logging (H:=sample_library)
      "app" None None (Some "https://discord.test/hook") empty_world
      = (Ok "app", w') ∧
    h = handler.mk_handler INFO (Some "https://discord.test/hook") None None ∧
    sink_registered (H0:=handler.DiscordLogHandler_Handler (H:=sample_library))
      WARNING "app" h empty_world w'.
Proof.
  apply (proj1 (registration_levels (H:=sample_library) (H0:=hex_colors)
                  WARNING "app")).
  right. split; reflexivity.
Defined.

(** ** Emitting *)

Section Emit.

Context `{Library} `{ColorFactory}.

Lemma bot_format_outcome (r : LogRecord) :
  handler.bot_format r
  = match fromisoformat (handler.get_timestamp r) with
    | Ok dt => Ok (bot_embed (mk_color (handler.get_color r)) dt r)
    | Raised e => Raised e
    end.
Proof. unfold handler.bot_format. by destruct (fromisoformat _). Qed.

Lemma script_format_outcome (self : main.DiscordLogHandler) (r : LogRecord) :
  main.format self r
  = match fromisoformat (handler.get_timestamp r) with
    | Ok dt => Ok (bot_embed (script_color r) dt r)
    | Raised e => Raised e
    end.
Proof.
  unfold main.format. fold (handler.get_timestamp r).
  by destruct (fromisoformat _).
Qed.

Lemma emit_bot_outcome (self : handler.DiscordLogHandler) (b : Bot)
    (r : LogRecord) (w : World handler.DiscordLogHandler) :
  handler.bot self = Some b →
  handler.emit self r w
  = match handler.bot_format r with
    | Ok e => (Ok tt, mk_world (loggers w)
                        (scheduled w ++ [(loop b, mk_task self e)])
                        (posts w) (sent w))
    | Raised err => (Raised err, w)
    end.
Proof.
  intros Hb. unfold handler.emit. rewrite Hb. unfold bind, lift.
  by destruct (handler.bot_format r).
Qed.

Lemma script_emit_outcome (self : main.DiscordLogHandler)
    (r : LogRecord) (w : World main.DiscordLogHandler) :
  main.emit self r w
  = match main.format self r with
    | Ok e => (Ok tt, mk_world (loggers w)
                        (scheduled w ++ [(loop (main.bot self), mk_task self e)])
                        (posts w) (sent w))
    | Raised err => (Raised err, w)
    end.
Proof. unfold main.emit, bind, lift. by destruct (main.format self r). Qed.

Lemma emit_webhook_outcome (self : handler.DiscordLogHandler) (u : string)
    (r : LogRecord) (w : World handler.DiscordLogHandler) :
  handler.bot self = None → handler.webhook_url self = Some u →
  truthy_str (Some u) = true →
  handler.emit self r w
  = (match urlopen (posts w) (webhook_request u r) with
     | Ok _ => Ok tt
     | Raised e => Raised e
     end,
     mk_world (loggers w) (scheduled w)
              (posts w ++ [webhook_request u r]) (sent w)).
Proof.
  intros Hb Hu Ht. unfold handler.emit. rewrite Hb, Hu.
  destruct u as [|c u]; [done|].
  unfold bind, call_urlopen. fold (webhook_request (String c u) r).
  by destruct (urlopen _ _).
Qed.

(** X2: an empty webhook URL counts as none: with a bot the
    constructor accepts it and the handler is in bot mode; alone it is
    refused. *)
Lemma empty_url_counts_as_missing (b : Bot) (cid : option Z)
    (w : World handler.DiscordLogHandler) :
  handler.__init__ (Some "") (Some b) cid w
    = (Ok (handler.mk_handler NOTSET (Some "") (Some b) cid), w) ∧
  handler.__init__ (Some "") None cid w
    = (Raised (ValueError "Either bot or webhook_url must be provided."), w).
Proof. done. Qed.

(** A handler with neither target, which the constructor never builds,
    emits nothing. *)
Lemma emit_idle_outcome (self : handler.DiscordLogHandler)
    (r : LogRecord) (w : World handler.DiscordLogHandler) :
  handler.bot self = None → truthy_str (handler.webhook_url self) = false →
  handler.emit self r w = (Ok tt, w).
Proof.
  intros Hb Hu. unfold handler.emit. rewrite Hb.
  by destruct (handler.webhook_url self) as [[|c u]|].
Qed.

(** In bot mode a timestamp that [fromisoformat] rejects makes [emit]
    raise that error before anything is scheduled. *)
Lemma emit_bot_bad_timestamp (self : handler.DiscordLogHandler) (b : Bot)
    (r : LogRecord) (w : World handler.DiscordLogHandler) (err : Exception) :
  handler.bot self = Some b →
  fromisoformat (handler.get_timestamp r) = Raised err →
  handler.emit self r w = (Raised err, w).
Proof.
  intros Hb Hts. rewrite (emit_bot_outcome _ b), bot_format_outcome, Hts; done.
Qed.

(** With the hex constants in the colour objects, the script picks the
    colour the package computes. *)
Lemma script_color_hex (r : LogRecord) :
  value Color_red = 0xE74C3C →
  value Color_yellow = 0xF1C40F →
  value Color_greyple = 0x95A5A6 →
  script_color r = mk_color (handler.get_color r).
Proof.
  intros Hred Hyellow Hgrey. unfold script_color, handler.get_color.
  destruct Color_red, Color_yellow, Color_greyple; simpl in *; subst.
  by repeat case_match.
Qed.

End Emit.

Section Claims.

Context `{Library} `{ColorFactory}.

(** C8: in webhook mode, when [urlopen] raises, be it an HTTP error or
    a transport error, [emit] raises that very exception; the request
    was issued once and nothing else happened.  Whatever the mode and
    the outcome, one call of [emit] issues at most one request. *)
Theorem webhook_failure_propagates (self : handler.DiscordLogHandler)
    (u : string) (r : LogRecord) (w : World handler.DiscordLogHandler)
    (e : Exception) :
  handler.bot self = None → handler.webhook_url self = Some u →
  truthy_str (Some u) = true →
  urlopen (posts w) (webhook_request u r) = Raised e →
  handler.emit self r w
    = (Raised e, mk_world (loggers w) (scheduled w)
                          (posts w ++ [webhook_request u r]) (sent w)) ∧
  ∀ (self' : handler.DiscordLogHandler) r' w',
    (length (posts (handler.emit self' r' w').2) ≤ S (length (posts w')))%nat.
Proof.
  intros Hb Hu Ht Hfail. split.
  - rewrite (emit_webhook_outcome self u), Hfail by done. done.
  - intros self' r' w'.
    destruct (handler.bot self') as [b|] eqn:Hb'.
    + rewrite (emit_bot_outcome self' b) by done.
      destruct (handler.bot_format r'); simpl; lia.
    + destruct (truthy_str (handler.webhook_url self')) eqn:Ht'.
      * destruct (handler.webhook_url self') as [u'|] eqn:Hu'; [|done].
        rewrite (emit_webhook_outcome self' u') by done. simpl.
        rewrite length_app. simpl. lia.
      * rewrite emit_idle_outcome by done. simpl. lia.
Qed.

(** C7, amended: in bot mode [emit] never issues a request, never sends
    and never touches the registry; for a record whose timestamp
    [datetime.fromisoformat] accepts it returns normally having queued
    exactly one task, the send of the rendered embed, on the bot's own
    loop, whatever running that task would do; for a record whose
    timestamp is rejected it raises that error and queues nothing.  The
    script's [emit] does the same. *)
Theorem bot_emit_schedules (self : handler.DiscordLogHandler) (b : Bot)
    (script_self : main.DiscordLogHandler) (r : LogRecord) :
  handler.bot self = Some b →
  (∀ w, posts (handler.emit self r w).2 = posts w ∧
        sent (handler.emit self r w).2 = sent w ∧
        loggers (handler.emit self r w).2 = loggers w ∧
        (length (scheduled (handler.emit self r w).2)
           ≤ S (length (scheduled w)))%nat) ∧
  (∀ dt, fromisoformat (handler.get_timestamp r) = Ok dt →
     ∃ e, handler.bot_format r = Ok e ∧
       ∀ w, handler.emit self r w
            = (Ok tt, mk_world (loggers w)
                        (scheduled w ++ [(loop b, mk_task self e)])
                        (posts w) (sent w))) ∧
  (∀ err, fromisoformat (handler.get_timestamp r) = Raised err →
     ∀ w, handler.emit self r w = (Raised err, w)) ∧
  (∀ dt, fromisoformat (handler.get_timestamp r) = Ok dt →
     ∃ e, main.format script_self r = Ok e ∧
       ∀ w, main.emit script_self r w
            = (Ok tt, mk_world (loggers w)
                        (scheduled w ++
                           [(loop (main.bot script_self), mk_task script_self e)])
                        (posts w) (sent w))) ∧
  (∀ err, fromisoformat (handler.get_timestamp r) = Raised err →
     ∀ w, main.emit script_self r w = (Raised err, w)).
Proof.
  intros Hb. split; [|split; [|split; [|split]]].
  - intros w. rewrite (emit_bot_outcome self b) by done.
    destruct (handler.bot_format r); simpl; rewrite ?length_app; simpl;
      repeat split; lia.
  - intros dt Hdt. eexists. split.
    + rewrite bot_format_outcome, Hdt. reflexivity.
    + intros w. rewrite (emit_bot_outcome self b), bot_format_outcome, Hdt; done.
  - intros err Herr w. by apply (emit_bot_bad_timestamp self b).
  - intros dt Hdt. eexists. split.
    + rewrite script_format_outcome, Hdt. reflexivity.
    + intros w. rewrite script_emit_outcome, script_format_outcome, Hdt; done.
  - intros err Herr w.
    rewrite script_emit_outcome, script_format_outcome, Herr; done.
Qed.

(** C5, amended: the embed [bot_format] builds has the record's
    message as description, the colour of its level, the parsed
    timestamp, and three inline fields: Level and Module, the two of
    the webhook embed, then Timestamp with the display timestamp; it
    is the embed the scheduled task gives to [channel.send].  The
    script's [format] builds the same embed around its own colour. *)
Theorem bot_embed_contents (r : LogRecord) :
  (∀ dt, fromisoformat (handler.get_timestamp r) = Ok dt →
     handler.bot_format r
     = Ok (mk_embed (message r) (mk_color (handler.get_color r)) dt
             [mk_field "Level" (levelname r) true;
              mk_field "Module" (module r) true;
              mk_field "Timestamp" (handler.get_timestamp r) true])) ∧
  (∀ e, handler.bot_format r = Ok e →
     description e = message r ∧
     value (color e) = handler.get_color r ∧
     fromisoformat (handler.get_timestamp r) = Ok (timestamp e) ∧
     fields e = [mk_field "Level" (levelname r) true;
                 mk_field "Module" (module r) true;
                 mk_field "Timestamp" (handler.get_timestamp r) true] ∧
     embed_entry (handler.webhook_format r) "fields"
       = Some (JList (field_json <$> take 2 (fields e)))) ∧
  (∀ self b channel e (w : World handler.DiscordLogHandler),
     handler.bot self = Some b →
     get_channel b (handler.channel_id self) = Some channel →
     channel_send channel e = None →
     handler.run_task (mk_task self e) w
     = (Ok tt, mk_world (loggers w) (scheduled w) (posts w)
                        (sent w ++ [(channel, e)]))) ∧
  (∀ self dt, fromisoformat (handler.get_timestamp r) = Ok dt →
     main.format self r
     = Ok (mk_embed (message r) (script_color r) dt
             [mk_field "Level" (levelname r) true;
              mk_field "Module" (module r) true;
              mk_field "Timestamp" (handler.get_timestamp r) true])).
Proof.
  split; [|split; [|split]].
  - intros dt Hdt. by rewrite bot_format_outcome, Hdt.
  - intros e. rewrite bot_format_outcome.
    destruct (fromisoformat _) as [dt|]; [|done]. by intros [= <-].
  - intros self b channel e w Hb Hch Hsend.
    unfold handler.run_task, handler._send_log; simpl.
    rewrite Hb, Hch. unfold send. by rewrite Hsend.
  - intros self dt Hdt. by rewrite script_format_outcome, Hdt.
Qed.

(** C9, amended: on every record the script's [format] and the
    package's [bot_format] fail with the same error or build embeds with
    the same description, the same timestamp and the same fields; the
    colours are picked by the same thresholds, the script's among its
    three colour objects and the package's among its hex constants, so
    the two outcomes are equal when those objects hold the hex constants,
    and from level 40 up as soon as the red one does. *)
Theorem script_differs_only_in_color (self : main.DiscordLogHandler)
    (r : LogRecord) :
  (∀ dt, fromisoformat (handler.get_timestamp r) = Ok dt →
     ∃ e e', main.format self r = Ok e ∧ handler.bot_format r = Ok e' ∧
             description e = description e' ∧
             timestamp e = timestamp e' ∧
             fields e = fields e' ∧
             color e = script_color r ∧
             value (color e') = handler.get_color r) ∧
  (∀ err, fromisoformat (handler.get_timestamp r) = Raised err →
     main.format self r = Raised err ∧ handler.bot_format r = Raised err) ∧
  (value Color_red = 0xE74C3C →
   value Color_yellow = 0xF1C40F →
   value Color_greyple = 0x95A5A6 →
   main.format self r = handler.bot_format r) ∧
  (value Color_red = 0xE74C3C → 40 ≤ levelno r →
   main.format self r = handler.bot_format r).
Proof.
  rewrite script_format_outcome, bot_format_outcome.
  split; [|split; [|split]].
  - intros dt ->. by do 2 eexists.
  - by intros err ->.
  - intros Hred Hyellow Hgrey.
    destruct (fromisoformat (handler.get_timestamp r)) as [dt|err]; [|done].
    f_equal. unfold bot_embed. f_equal. by apply script_color_hex.
  - intros Hred Hlvl.
    destruct (fromisoformat (handler.get_timestamp r)) as [dt|err]; [|done].
    f_equal. unfold bot_embed. f_equal.
    unfold script_color, handler.get_color.
    destruct (Z.geb_spec (levelno r) 40); [|lia].
    destruct Color_red; simpl in *; by subst.
Qed.

(** X1: if the two formatters agree on every record and some record's
    timestamp parses, the script's colour objects hold the package's
    hex constants. *)
Theorem script_matches_package_only_if (self : main.DiscordLogHandler)
    (r0 : LogRecord) (dt : datetime) :
  fromisoformat (handler.get_timestamp r0) = Ok dt →
  (∀ r, main.format self r = handler.bot_format r) →
  value Color_red = 0xE74C3C ∧
  value Color_yellow = 0xF1C40F ∧
  value Color_greyple = 0x95A5A6.
Proof.
  intros Hdt Hagree.
  assert (Hat : ∀ lvl,
    script_color (mk_record (message r0) (asctime r0) (levelname r0) lvl (module r0))
    = mk_color (handler.get_color
        (mk_record (message r0) (asctime r0) (levelname r0) lvl (module r0)))).
  { intros lvl.
    specialize (Hagree (mk_record (message r0) (asctime r0) (levelname r0) lvl (module r0))).
    rewrite script_format_outcome, bot_format_outcome in Hagree.
    change (handler.get_timestamp (mk_record _ _ _ _ _))
      with (handler.get_timestamp r0) in Hagree.
    rewrite Hdt in Hagree. by injection Hagree. }
  pose proof (Hat 40) as H40. pose proof (Hat 30) as H30. pose proof (Hat 0) as H0'.
  unfold script_color, handler.get_color in *; simpl in *.
  by rewrite H40, H30, H0'.
Qed.

(** C10: the constructor accepts a bot without a channel identifier,
    and its outcome never depends on the identifier; [emit] then queues
    the send without complaint; the failure comes when the task runs,
    resolves no channel and raises [AttributeError]. *)
Theorem channel_id_not_validated (b : Bot) :
  let h := handler.mk_handler NOTSET None (Some b) None in
  (∀ w, handler.__init__ None (Some b) None w = (Ok h, w)) ∧
  (∀ url bot cid cid' w,
     match (handler.__init__ url bot cid w).1,
           (handler.__init__ url bot cid' w).1 with
     | Ok _, Ok _ => True
     | Raised e, Raised e' => e = e'
     | _, _ => False
     end) ∧
  (∀ r dt w, fromisoformat (handler.get_timestamp r) = Ok dt →
     ∃ e, handler.emit h r w
          = (Ok tt, mk_world (loggers w)
                      (scheduled w ++ [(loop b, mk_task h e)])
                      (posts w) (sent w))) ∧
  (∀ e w, handler.run_task (mk_task h e) w
          = (Raised (AttributeError "'NoneType' object has no attribute 'send'"),
             w)).
Proof.
  intros h. split; [|split; [|split]].
  - intros w. by rewrite init_outcome.
  - intros url bot cid cid' w. rewrite !init_outcome.
    by destruct (truthy_obj bot), (truthy_str url).
  - intros r dt w Hdt. eexists.
    rewrite (emit_bot_outcome h b), bot_format_outcome, Hdt; done.
  - intros e w. done.
Qed.

End Claims.

(** ** Instances of the statements *)

(** C5 as stated fails: the embed built for the sample record carries a
    third field, Timestamp. *)
Lemma bot_embed_has_third_field :
  handler.bot_format (H:=sample_library) sample_record = Ok sample_embed ∧
  name <$> fields sample_embed = ["Level"; "Module"; "Timestamp"] ∧
  length (fields sample_embed) = 3%nat.
Proof. by vm_compute. Qed.

Lemma webhook_failure_propagates_witness :
  handler.emit (H:=failing_library) webhook_handler sample_record empty_world
  = (Raised (HTTPError 429 "Too Many Requests"),
     mk_world ∅ []
       [webhook_request (H:=failing_library) "https://discord.test/hook"
          sample_record] []).
Proof.
  exact (proj1 (webhook_failure_propagates (H:=failing_library) webhook_handler
                  "https://discord.test/hook" sample_record empty_world
                  (HTTPError 429 "Too Many Requests")
                  eq_refl eq_refl eq_refl eq_refl)).
Defined.

Lemma bot_emit_schedules_witness :
  ∃ e, handler.bot_format (H:=sample_library) sample_record = Ok e ∧
       handler.emit (H:=sample_library) bot_handler sample_record empty_world
       = (Ok tt, mk_world ∅ [(0%nat, mk_task bot_handler e)] [] []).
Proof.
  destruct (proj1 (proj2 (bot_emit_schedules (H:=sample_library) (H0:=hex_colors)
                            bot_handler sample_bot script_handler sample_record
                            eq_refl))
              sample_datetime eq_refl) as (e & Hfmt & Hemit).
  exists e. split; [exact Hfmt | exact (Hemit empty_world)].
Defined.

Lemma bot_embed_contents_witness :
  handler.bot_format (H:=sample_library) sample_record
  = Ok (mk_embed "boom" (mk_color 0xE74C3C) sample_datetime
          [mk_field "Level" "ERROR" true;
           mk_field "Module" "worker" true;
           mk_field "Timestamp" "2024-03-01 12:00:00" true]).
Proof.
  exact (proj1 (bot_embed_contents (H:=sample_library) (H0:=hex_colors)
                  sample_record) sample_datetime eq_refl).
Defined.

Lemma script_differs_only_in_color_witness :
  main.format (H:=sample_library) (H0:=hex_colors) script_handler sample_warning
  = handler.bot_format (H:=sample_library) sample_warning.
Proof.
  exact (proj1 (proj2 (proj2 (script_differs_only_in_color (H:=sample_library)
                                (H0:=hex_colors) script_handler sample_warning)))
           eq_refl eq_refl eq_refl).
Defined.

(** C9 as stated fails: with the colours of discord.py a WARNING record
    is [0xFEE75C] in the script and [0xF1C40F] in the package, and a
    DEBUG record [0x99AAB5] in the script and [0x95A5A6] in the
    package. *)
Lemma script_colors_differ :
  ∃ e e' d d',
    main.format (H:=sample_library) (H0:=discordpy_colors)
      script_handler sample_warning = Ok e ∧
    handler.bot_format (H:=sample_library) sample_warning = Ok e' ∧
    value (color e) = 0xFEE75C ∧
    value (color e') = 0xF1C40F ∧
    main.format (H:=sample_library) (H0:=discordpy_colors)
      script_handler sample_debug = Ok d ∧
    handler.bot_format (H:=sample_library) sample_debug = Ok d' ∧
    value (color d) = 0x99AAB5 ∧
    value (color d') = 0x95A5A6.
Proof. do 4 eexists. by vm_compute. Qed.

(** C7 as stated fails: on a record whose timestamp is no ISO date,
    [emit] raises and queues nothing. *)
Lemma undated_record_not_scheduled :
  handler.emit (H:=sample_library) bot_handler undated_record empty_world
  = (Raised (ValueError "Invalid isoformat string: 'not a date'"), empty_world).
Proof. by vm_compute. Qed.

Lemma script_matches_package_only_if_witness :
  value (Color_red (ColorFactory:=hex_colors)) = 0xE74C3C ∧
  value (Color_yellow (ColorFactory:=hex_colors)) = 0xF1C40F ∧
  value (Color_greyple (ColorFactory:=hex_colors)) = 0x95A5A6.
Proof.
  apply (script_matches_package_only_if (H:=sample_library) (H0:=hex_colors)
           script_handler sample_record sample_datetime eq_refl).
  intros r. rewrite script_format_outcome, bot_format_outcome.
  by rewrite script_color_hex.
Defined.

Lemma channel_id_not_validated_witness :
  ∃ e, handler.emit (H:=sample_library)
         (handler.mk_handler NOTSET None (Some sample_bot) None)
         sample_record empty_world
       = (Ok tt, mk_world ∅
            [(0%nat, mk_task (handler.mk_handler NOTSET None (Some sample_bot) None) e)]
            [] []).
Proof.
  exact (proj1 (proj2 (proj2 (channel_id_not_validated (H:=sample_library)
                                sample_bot)))
           sample_record sample_datetime empty_world eq_refl).
Defined.

(** ** Further properties of the package and of the script *)

(** The head of a split ignores what follows a separator. *)
Lemma split_head_app (sep : Ascii.ascii) (a b : string) :
  index0 (split sep (a +:+ String sep b)) = index0 (split sep a).
Proof.
  induction a as [|c a IH]; simpl.
  - by rewrite Ascii.eqb_refl.
  - destruct (Ascii.eqb c sep); [done|].
    destruct (split_head sep (a +:+ String sep b)) as (h & t & ? & Hs & _).
    destruct (split_head sep a) as (h' & t' & ? & Hs' & _).
    rewrite Hs, Hs' in *. simpl in *. unfold index0 in IH; simpl in IH.
    by injection IH as ->.
Qed.

(** A string without the separator is the only piece of its split. *)
Lemma split_absent (sep : Ascii.ascii) (s : string) :
  sep ∉ chars s → split sep s = [s].
Proof.
  induction s as [|c s IH]; [done|]. unfold chars; simpl.
  intros [Hc Hs]%not_elem_of_cons.
  destruct (Ascii.eqb c sep) eqn:E.
  - apply Ascii.eqb_eq in E. congruence.
  - by rewrite IH.
Qed.

Section Extras.

Context `{Library} `{ColorFactory}.

(** X3: [from_bot] never fails and builds a handler in bot mode with the
    channel identifier stored; [from_webhook] builds a handler in webhook
    mode for a non-empty URL and raises [ValueError] for the empty one;
    neither touches the world. *)
Theorem factory_constructors (b : Bot) (cid : Z) (u : string)
    (w : World handler.DiscordLogHandler) :
  handler.from_bot b cid w
    = (Ok (handler.mk_handler NOTSET None (Some b) (Some cid)), w) ∧
  (u ≠ "" →
   handler.from_webhook u w
     = (Ok (handler.mk_handler NOTSET (Some u) None None), w)) ∧
  handler.from_webhook "" w
    = (Raised (ValueError "Either bot or webhook_url must be provided."), w).
Proof.
  split; [done|]. split; [|done].
  intros Hu. unfold handler.from_webhook. rewrite init_outcome.
  by destruct u.
Qed.

(** X5: the colour is red exactly from level 40 up, yellow exactly at
    level 30 and grey at every other level: below 30 and also from 31
    to 39. *)
Theorem color_classification (r : LogRecord) :
  (handler.get_color r = 0xE74C3C ↔ 40 ≤ levelno r) ∧
  (handler.get_color r = 0xF1C40F ↔ levelno r = 30) ∧
  (handler.get_color r = 0x95A5A6 ↔ levelno r < 40 ∧ levelno r ≠ 30) ∧
  (30 < levelno r < 40 → handler.get_color r = 0x95A5A6).
Proof.
  unfold handler.get_color.
  destruct (Z.geb_spec (levelno r) 40), (Z.eqb_spec (levelno r) 30);
    repeat split; try done; try lia; intros; try lia; try discriminate.
Qed.

(** X6: only the part of [asctime] before its first comma is rendered:
    appending a comma and anything to [asctime] changes neither the
    display timestamp, nor the webhook payload, nor the outcome of
    either bot formatter; an [asctime] without comma is displayed whole,
    and taking the timestamp of a timestamp changes nothing. *)
Theorem rendering_ignores_suffix (self : main.DiscordLogHandler)
    (r : LogRecord) (suffix : string) :
  let r' := with_asctime (asctime r +:+ String ","%char suffix) r in
  handler.get_timestamp r' = handler.get_timestamp r ∧
  handler.webhook_format r' = handler.webhook_format r ∧
  handler.bot_format r' = handler.bot_format r ∧
  main.format self r' = main.format self r ∧
  (","%char ∉ chars (asctime r) → handler.get_timestamp r = asctime r) ∧
  handler.get_timestamp (with_asctime (handler.get_timestamp r) r)
    = handler.get_timestamp r.
Proof.
  intros r'.
  assert (Hts : handler.get_timestamp r' = handler.get_timestamp r).
  { unfold handler.get_timestamp, r'; simpl. by rewrite split_head_app. }
  assert (Hsame : ∀ s, ","%char ∉ chars s →
            handler.get_timestamp (with_asctime s r) = s).
  { intros s Hs. unfold handler.get_timestamp; simpl. by rewrite split_absent. }
  split; [done|]. split.
  { unfold handler.webhook_format. by rewrite Hts. }
  split.
  { rewrite !bot_format_outcome. unfold bot_embed. by rewrite Hts. }
  split.
  { rewrite !script_format_outcome. unfold bot_embed. by rewrite Hts. }
  split.
  - intros Hno. specialize (Hsame (asctime r) Hno). by destruct r.
  - apply Hsame. by destruct (get_timestamp_prefix r) as (? & _ & Hno & _).
Qed.

End Extras.

(** X7: each mode consults only its own library functions: in bot mode
    the outcome of [emit] depends on the library through
    [fromisoformat] alone, so no JSON is serialised and no request is
    opened; in webhook mode it depends on it through [json.dumps] and
    [urlopen] alone, so the timestamp is never parsed or validated. *)
Theorem emit_consults_only_its_mode (L1 L2 : Library)
    (self : handler.DiscordLogHandler) (r : LogRecord)
    (w : World handler.DiscordLogHandler) :
  (∀ b, handler.bot self = Some b →
     fromisoformat (Library:=L1) (handler.get_timestamp r)
       = fromisoformat (Library:=L2) (handler.get_timestamp r) →
     handler.emit (H:=L1) self r w = handler.emit (H:=L2) self r w) ∧
  (handler.bot self = None →
     json_dumps (Library:=L1) (handler.webhook_format r)
       = json_dumps (Library:=L2) (handler.webhook_format r) →
     (∀ req, urlopen (Library:=L1) (posts w) req
             = urlopen (Library:=L2) (posts w) req) →
     handler.emit (H:=L1) self r w = handler.emit (H:=L2) self r w).
Proof.
  split.
  - intros b Hb Hparse.
    rewrite !(emit_bot_outcome (H:=_) self b) by done.
    by rewrite !bot_format_outcome, Hparse.
  - intros Hb Hdumps Hopen.
    destruct (truthy_str (handler.webhook_url self)) eqn:Ht.
    + destruct (handler.webhook_url self) as [u|] eqn:Hu; [|done].
      rewrite !(emit_webhook_outcome (H:=_) self u) by done.
      unfold webhook_request. by rewrite Hdumps, Hopen.
    + by rewrite !emit_idle_outcome.
Qed.

Section Delivery.

Context `{Library} `{ColorFactory}.

(** X8: in bot mode, when the timestamp parses, the bot knows the
    channel and [channel.send] succeeds, [emit] followed by a run of the
    task it queued delivers to that channel exactly the embed of the
    record, and issues no request. *)
Theorem queued_send_delivers (self : handler.DiscordLogHandler) (b : Bot)
    (channel : Channel) (r : LogRecord) (dt : datetime)
    (w : World handler.DiscordLogHandler) :
  handler.bot self = Some b →
  get_channel b (handler.channel_id self) = Some channel →
  fromisoformat (handler.get_timestamp r) = Ok dt →
  channel_send channel (bot_embed (mk_color (handler.get_color r)) dt r) = None →
  let e := bot_embed (mk_color (handler.get_color r)) dt r in
  let t := mk_task self e in
  handler.emit self r w = (Ok tt, queued (loop b) t w) ∧
  handler.run_task t (queued (loop b) t w)
    = (Ok tt, delivered channel e (queued (loop b) t w)) ∧
  sent (delivered channel e (queued (loop b) t w)) = sent w ++ [(channel, e)] ∧
  posts (delivered channel e (queued (loop b) t w)) = posts w.
Proof.
  intros Hb Hch Hdt Hsend e t.
  split; [|split; [|done]].
  - by rewrite (emit_bot_outcome self b), bot_format_outcome, Hdt.
  - unfold handler.run_task, handler._send_log, t, e; simpl.
    rewrite Hb, Hch. unfold send. by rewrite Hsend.
Qed.

(** X9: the same for the script: [emit] followed by [_send_log] on the
    queued arguments delivers the script's embed to the channel known
    under the stored identifier. *)
Theorem script_queued_send_delivers (self : main.DiscordLogHandler)
    (channel : Channel) (r : LogRecord) (dt : datetime)
    (w : World main.DiscordLogHandler) :
  channels (main.bot self) (main.channel_id self) = Some channel →
  fromisoformat (handler.get_timestamp r) = Ok dt →
  channel_send channel (bot_embed (script_color r) dt r) = None →
  let e := bot_embed (script_color r) dt r in
  let t := mk_task self e in
  main.emit self r w = (Ok tt, queued (loop (main.bot self)) t w) ∧
  main._send_log (task_self t) (task_embed t) (queued (loop (main.bot self)) t w)
    = (Ok tt, delivered channel e (queued (loop (main.bot self)) t w)).
Proof.
  intros Hch Hdt Hsend e t. split.
  - by rewrite script_emit_outcome, script_format_outcome, Hdt.
  - unfold main._send_log, get_channel, t, e; simpl.
    rewrite Hch. unfold send. by rewrite Hsend.
Qed.

(** X10: how a send fails: a handler without bot sends nothing and
    returns; an identifier the bot knows no channel for makes the task
    raise [AttributeError]; an exception of [channel.send] is the
    task's; in every case nothing is recorded as sent.  The script's
    [_send_log] fails the same two ways. *)
Theorem send_log_failures (self : handler.DiscordLogHandler)
    (script_self : main.DiscordLogHandler) (e : Embed)
    (w : World handler.DiscordLogHandler)
    (w' : World main.DiscordLogHandler) :
  (handler.bot self = None → handler._send_log self e w = (Ok tt, w)) ∧
  (∀ b, handler.bot self = Some b →
     get_channel b (handler.channel_id self) = None →
     handler._send_log self e w
     = (Raised (AttributeError "'NoneType' object has no attribute 'send'"), w)) ∧
  (∀ b channel err, handler.bot self = Some b →
     get_channel b (handler.channel_id self) = Some channel →
     channel_send channel e = Some err →
     handler._send_log self e w = (Raised err, w)) ∧
  (channels (main.bot script_self) (main.channel_id script_self) = None →
     main._send_log script_self e w'
     = (Raised (AttributeError "'NoneType' object has no attribute 'send'"), w')) ∧
  (∀ channel err,
     channels (main.bot script_self) (main.channel_id script_self) = Some channel →
     channel_send channel e = Some err →
     main._send_log script_self e w' = (Raised err, w')).
Proof.
  unfold handler._send_log, main._send_log, get_channel; simpl.
  split; [by intros ->|]. split; [by intros b -> ->|].
  split; [intros b channel err -> -> Herr; unfold send; by rewrite Herr|].
  split; [by intros ->|].
  intros channel err -> Herr. unfold send. by rewrite Herr.
Qed.

End Delivery.

(** ** Instances of the further properties *)

Lemma factory_constructors_witness :
  handler.from_webhook "https://discord.test/hook" empty_world
  = (Ok (handler.mk_handler NOTSET (Some "https://discord.test/hook") None None),
     empty_world).
Proof.
  exact (proj1 (proj2 (factory_constructors sample_bot 7
                         "https://discord.test/hook" empty_world))
           ltac:(discriminate)).
Defined.

Lemma rendering_ignores_suffix_witness :
  handler.get_timestamp (with_asctime "2024-03-01 12:00:00" sample_record)
  = "2024-03-01 12:00:00".
Proof.
  apply (proj1 (proj2 (proj2 (proj2 (proj2
           (rendering_ignores_suffix (H:=sample_library) (H0:=hex_colors)
              script_handler
              (with_asctime "2024-03-01 12:00:00" sample_record) "")))))).
  absent_char.
Defined.

Lemma color_classification_witness :
  handler.get_color (mk_record "slow" "2024-03-01 12:00:00" "NOTICE" 35 "worker")
  = 0x95A5A6.
Proof.
  apply (proj2 (proj2 (proj2 (color_classification
           (mk_record "slow" "2024-03-01 12:00:00" "NOTICE" 35 "worker"))))).
  simpl; lia.
Defined.

Lemma emit_consults_only_its_mode_witness :
  handler.emit (H:=sample_library) bot_handler sample_record empty_world
  = handler.emit (H:=failing_library) bot_handler sample_record empty_world.
Proof.
  exact (proj1 (emit_consults_only_its_mode sample_library failing_library
                  bot_handler sample_record empty_world)
           sample_bot eq_refl eq_refl).
Defined.

Lemma queued_send_delivers_witness :
  handler.emit (H:=sample_library) bot_handler sample_record empty_world
    = (Ok tt, queued 0 (mk_task bot_handler sample_embed) empty_world) ∧
  handler.run_task (H:=sample_library) (mk_task bot_handler sample_embed)
    (queued 0 (mk_task bot_handler sample_embed) empty_world)
    = (Ok tt, delivered (mk_channel 7) sample_embed
                (queued 0 (mk_task bot_handler sample_embed) empty_world)).
Proof.
  pose proof (queued_send_delivers (H:=sample_library) bot_handler sample_bot
                (mk_channel 7) sample_record sample_datetime empty_world
                eq_refl eq_refl eq_refl eq_refl) as (Hemit & Hrun & _).
  split; [exact Hemit | exact Hrun].
Defined.

Lemma script_queued_send_delivers_witness :
  main._send_log (H:=sample_library) script_handler
    (bot_embed (script_color (H:=discordpy_colors) sample_record)
       sample_datetime sample_record)
    (queued 0 (mk_task script_handler
                 (bot_embed (script_color (H:=discordpy_colors) sample_record)
                    sample_datetime sample_record)) empty_world)
  = (Ok tt, delivered (mk_channel 7)
              (bot_embed (script_color (H:=discordpy_colors) sample_record)
                 sample_datetime sample_record)
              (queued 0 (mk_task script_handler
                 (bot_embed (script_color (H:=discordpy_colors) sample_record)
                    sample_datetime sample_record)) empty_world)).
Proof.
  exact (proj2 (script_queued_send_delivers (H:=sample_library)
                  (H0:=discordpy_colors) script_handler (mk_channel 7)
                  sample_record sample_datetime empty_world
                  eq_refl eq_refl eq_refl)).
Defined.

Lemma send_log_failures_witness :
  handler._send_log (H:=sample_library) webhook_handler sample_embed empty_world
  = (Ok tt, empty_world).
Proof.
  exact (proj1 (send_log_failures (H:=sample_library) webhook_handler
                  script_handler sample_embed empty_world empty_world)
           eq_refl).
Defined.

Section Frame.

Context `{Library} `{ColorFactory}.

(** X14: what one call of [emit] leaves alone: it never changes the
    logger registry and never delivers a message itself; it either
    issues no request and queues at most one task, or queues nothing and
    issues exactly one request, never both.  The script's [emit] never
    issues a request. *)
Theorem emit_frame (self : handler.DiscordLogHandler)
    (script_self : main.DiscordLogHandler) (r : LogRecord)
    (w : World handler.DiscordLogHandler)
    (w' : World main.DiscordLogHandler) :
  loggers (handler.emit self r w).2 = loggers w ∧
  sent (handler.emit self r w).2 = sent w ∧
  ((posts (handler.emit self r w).2 = posts w ∧
    (scheduled (handler.emit self r w).2 = scheduled w ∨
     ∃ l t, scheduled (handler.emit self r w).2 = scheduled w ++ [(l, t)])) ∨
   (scheduled (handler.emit self r w).2 = scheduled w ∧
    ∃ req, posts (handler.emit self r w).2 = posts w ++ [req])) ∧
  loggers (main.emit script_self r w').2 = loggers w' ∧
  sent (main.emit script_self r w').2 = sent w' ∧
  posts (main.emit script_self r w').2 = posts w'.
Proof.
  assert (Hscript : loggers (main.emit script_self r w').2 = loggers w' ∧
                    sent (main.emit script_self r w').2 = sent w' ∧
                    posts (main.emit script_self r w').2 = posts w').
  { rewrite script_emit_outcome. by destruct (main.format script_self r). }
  destruct (handler.bot self) as [b|] eqn:Hb.
  - rewrite (emit_bot_outcome self b) by done.
    destruct (handler.bot_format r) as [e|err]; simpl.
    + split; [done|]. split; [done|]. split; [|done].
      left. split; [done|]. right. by do 2 eexists.
    + split; [done|]. split; [done|]. split; [|done]. left. split; [done|]. by left.
  - destruct (truthy_str (handler.webhook_url self)) eqn:Ht.
    + destruct (handler.webhook_url self) as [u|] eqn:Hu; [|done].
      rewrite (emit_webhook_outcome self u) by done. simpl.
      split; [done|]. split; [done|]. split; [|done].
      right. split; [done|]. by eexists.
    + rewrite emit_idle_outcome by done. simpl.
      split; [done|]. split; [done|]. split; [|done]. left. split; [done|]. by left.
Qed.

End Frame.

(** ** Records as they come *)

Section Unformatted.

Context `{Library} `{Urllib} `{ColorFactory}.

(** On a record that carries both attributes the formatters are those of
    the formatted record. *)
Lemma raw_bot_format_formatted (record : RawRecord) (r : LogRecord) :
  formatted record = Some r →
  handler_raw.bot_format record = handler.bot_format r.
Proof.
  unfold formatted. destruct record as [[m|] [a|] ln lvl md]; simpl; try done.
  by intros [= <-].
Qed.

Lemma raw_webhook_format_formatted (record : RawRecord) (r : LogRecord) :
  formatted record = Some r →
  handler_raw.webhook_format record = Ok (handler.webhook_format r).
Proof.
  unfold formatted. destruct record as [[m|] [a|] ln lvl md]; simpl; try done.
  by intros [= <-].
Qed.

Lemma raw_script_format_formatted (self : main.DiscordLogHandler)
    (record : RawRecord) (r : LogRecord) :
  formatted record = Some r →
  main_raw.format self record = main.format self r.
Proof.
  unfold formatted. destruct record as [[m|] [a|] ln lvl md]; simpl; try done.
  by intros [= <-].
Qed.

(** The first attribute the three formatters miss is [asctime], then
    [message]. *)
Lemma raw_format_missing (self : main.DiscordLogHandler) (record : RawRecord) :
  formatted record = None →
  ∃ name,
    (raw_asctime record = None ∧ name = "asctime" ∨
     is_Some (raw_asctime record) ∧ raw_message record = None ∧
     name = "message") ∧
    let err := AttributeError
                 ("'LogRecord' object has no attribute '" +:+ name +:+ "'") in
    handler_raw.bot_format record = Raised err ∧
    handler_raw.webhook_format record = Raised err ∧
    main_raw.format self record = Raised err.
Proof.
  unfold formatted. destruct record as [[m|] [a|] ln lvl md]; simpl; try done;
    intros _.
  - exists "asctime". split; [by left | done].
  - exists "message". split; [right; by eauto | done].
  - exists "asctime". split; [by left | done].
Qed.

Lemma raw_emit_bot_outcome (self : handler.DiscordLogHandler) (b : Bot)
    (record : RawRecord) (w : World handler.DiscordLogHandler) :
  handler.bot self = Some b →
  handler_raw.emit self record w
  = match handler_raw.bot_format record with
    | Ok e => (Ok tt, queued (loop b) (mk_task self e) w)
    | Raised err => (Raised err, w)
    end.
Proof.
  intros Hb. unfold handler_raw.emit. rewrite Hb. unfold bind, lift.
  by destruct (handler_raw.bot_format record).
Qed.

Lemma raw_emit_webhook_outcome (self : handler.DiscordLogHandler) (u : string)
    (record : RawRecord) (w : World handler.DiscordLogHandler) :
  handler.bot self = None → handler.webhook_url self = Some u →
  truthy_str (Some u) = true →
  handler_raw.emit self record w
  = match handler_raw.webhook_format record with
    | Raised err => (Raised err, w)
    | Ok payload =>
        match check_url u with
        | Some err => (Raised err, w)
        | None =>
            let req :=
              mk_request u "POST"
                {[ "Content-Type" := "application/json";
                   "User-Agent" := "Mozilla/5.0" ]}
                (json_dumps payload) in
            (discard (urlopen (posts w) req), posted req w)
        end
    end.
Proof.
  intros Hb Hu Ht. unfold handler_raw.emit. rewrite Hb, Hu.
  destruct u as [|c u]; [done|].
  unfold bind, lift, Request_new.
  destruct (handler_raw.webhook_format record) as [payload|err]; [|done].
  destruct (check_url (String c u)) as [err|]; [done|].
  unfold call_urlopen, discard, posted. by destruct (urlopen _ _).
Qed.

Lemma raw_emit_idle_outcome (self : handler.DiscordLogHandler)
    (record : RawRecord) (w : World handler.DiscordLogHandler) :
  handler.bot self = None → truthy_str (handler.webhook_url self) = false →
  handler_raw.emit self record w = (Ok tt, w).
Proof.
  intros Hb Hu. unfold handler_raw.emit. rewrite Hb.
  by destruct (handler.webhook_url self) as [[|c u]|].
Qed.

Lemma raw_script_emit_outcome (self : main.DiscordLogHandler)
    (record : RawRecord) (w : World main.DiscordLogHandler) :
  main_raw.emit self record w
  = match main_raw.format self record with
    | Ok e => (Ok tt, queued (loop (main.bot self)) (mk_task self e) w)
    | Raised err => (Raised err, w)
    end.
Proof.
  unfold main_raw.emit, bind, lift. by destruct (main_raw.format self record).
Qed.

(** On a record that carries both attributes, and for a URL the request
    constructor accepts, [emit] is the [emit] of the formatted record. *)
Lemma raw_emit_formatted (self : handler.DiscordLogHandler)
    (record : RawRecord) (r : LogRecord)
    (w : World handler.DiscordLogHandler) :
  formatted record = Some r →
  (∀ u, handler.webhook_url self = Some u → check_url u = None) →
  handler_raw.emit self record w = handler.emit self r w.
Proof.
  intros Hr Hurl. destruct (handler.bot self) as [b|] eqn:Hb.
  - rewrite (raw_emit_bot_outcome self b), (emit_bot_outcome self b) by done.
    by rewrite (raw_bot_format_formatted record r).
  - destruct (truthy_str (handler.webhook_url self)) eqn:Ht.
    + destruct (handler.webhook_url self) as [u|] eqn:Hu; [|done].
      rewrite (raw_emit_webhook_outcome self u),
        (emit_webhook_outcome self u) by done.
      rewrite (raw_webhook_format_formatted record r), (Hurl u) by done.
      unfold discard, posted, webhook_request; simpl.
      by destruct (urlopen _ _).
    + by rewrite raw_emit_idle_outcome, emit_idle_outcome.
Qed.

Lemma raw_script_emit_formatted (self : main.DiscordLogHandler)
    (record : RawRecord) (r : LogRecord)
    (w : World main.DiscordLogHandler) :
  formatted record = Some r →
  main_raw.emit self record w = main.emit self r w.
Proof.
  intros Hr. rewrite raw_script_emit_outcome, script_emit_outcome.
  by rewrite (raw_script_format_formatted self record r).
Qed.


(** X4: the constructor succeeds exactly when one of the two targets is
    supplied; the handler it returns stores the three arguments as
    given, has level [NOTSET] and exactly one target, and the world is
    untouched; so [emit] on a constructed handler either is in bot mode
    and issues no request, or queues nothing and issues at most one
    request, a POST to the stored URL. *)
Theorem constructed_handler_invariant (webhook : option string)
    (bot : option Bot) (cid : option Z)
    (w : World handler.DiscordLogHandler) :
  (one_supplied bot webhook ↔ ∃ h, handler.__init__ webhook bot cid w = (Ok h, w)) ∧
  (∀ h w', handler.__init__ webhook bot cid w = (Ok h, w') →
     w' = w ∧ h = handler.mk_handler NOTSET webhook bot cid ∧
     one_supplied (handler.bot h) (handler.webhook_url h) ∧
     ((∃ b, handler.bot h = Some b ∧
            ∀ record w0, posts (handler_raw.emit h record w0).2 = posts w0) ∨
      (∃ u, handler.bot h = None ∧ handler.webhook_url h = Some u ∧
            ∀ record w0,
              scheduled (handler_raw.emit h record w0).2 = scheduled w0 ∧
              (posts (handler_raw.emit h record w0).2 = posts w0 ∨
               ∃ req, url req = u ∧ method req = "POST" ∧
                      posts (handler_raw.emit h record w0).2
                        = posts w0 ++ [req])))).
Proof.
  rewrite init_outcome. unfold one_supplied. split.
  - split.
    + intros [[-> ->]|[-> ->]]; simpl; by eexists.
    + intros [h Hh]. destruct (truthy_obj bot), (truthy_str webhook);
        simpl in Hh; try done; [by left | by right].
  - intros h w' Hh.
    assert (Hbot : ∀ b u0 record w0,
              posts (handler_raw.emit
                       (handler.mk_handler NOTSET u0 (Some b) cid) record w0).2
              = posts w0).
    { intros b u0 record w0. rewrite (raw_emit_bot_outcome _ b) by done.
      by destruct (handler_raw.bot_format record). }
    destruct bot as [b|], webhook as [[|c u]|]; simpl in Hh; try done;
      injection Hh as <- <-; simpl;
      (split; [done|]); (split; [done|]).
    + split; [by left|]. left. exists b. split; [done|]. apply Hbot.
    + split; [by left|]. left. exists b. split; [done|]. apply Hbot.
    + split; [by right|]. right. exists (String c u).
      split; [done|]. split; [done|]. intros record w0.
      rewrite (raw_emit_webhook_outcome _ (String c u)) by done.
      destruct (handler_raw.webhook_format record) as [payload|err];
        [|split; [done | by left]].
      destruct (check_url (String c u)) as [err|];
        [split; [done | by left]|].
      simpl. split; [done|]. right.
      by refine (ex_intro _ (mk_request (String c u) "POST" _ _) _).
Qed.

(** X11: neither [emit] formats the record: on a record on which no
    formatter has set [asctime], as the logging call hands it to the
    first handler, [emit] in bot mode, in webhook mode and in the script
    raises [AttributeError] and leaves the world as it was: nothing is
    queued and no request is issued. *)
Theorem unformatted_record_raises (self : handler.DiscordLogHandler)
    (script_self : main.DiscordLogHandler) (record : RawRecord)
    (w : World handler.DiscordLogHandler)
    (w' : World main.DiscordLogHandler) :
  raw_asctime record = None →
  (truthy_obj (handler.bot self) = true ∨
   truthy_str (handler.webhook_url self) = true →
   handler_raw.emit self record w
   = (Raised (AttributeError "'LogRecord' object has no attribute 'asctime'"),
      w)) ∧
  main_raw.emit script_self record w'
  = (Raised (AttributeError "'LogRecord' object has no attribute 'asctime'"),
     w').
Proof.
  intros Hnone. split.
  - intros Hmode. destruct (handler.bot self) as [b|] eqn:Hb.
    + rewrite (raw_emit_bot_outcome self b) by done.
      unfold handler_raw.bot_format, handler_raw.get_timestamp.
      by rewrite Hnone.
    + destruct Hmode as [Hmode|Hmode]; [done|].
      destruct (handler.webhook_url self) as [u|] eqn:Hu; [|done].
      rewrite (raw_emit_webhook_outcome self u) by done.
      unfold handler_raw.webhook_format, handler_raw.get_timestamp.
      by rewrite Hnone.
  - rewrite raw_script_emit_outcome. unfold main_raw.format.
    by rewrite Hnone.
Qed.

End Unformatted.



Lemma unformatted_record_raises_witness :
  handler_raw.emit (H:=sample_library) (H0:=sample_urllib)
    bot_handler fresh_record empty_world
  = (Raised (AttributeError "'LogRecord' object has no attribute 'asctime'"),
     empty_world).
Proof.
  apply (proj1 (unformatted_record_raises (H:=sample_library)
                  (H0:=sample_urllib) (H1:=discordpy_colors)
                  bot_handler script_handler fresh_record
                  empty_world empty_world eq_refl)).
  left. reflexivity.
Defined.
